(** * Runtime support entry points of ART (src/runtime_support.h)

    A shallow embedding of the inline routines of [runtime_support.h]:
    [AllocObjectFromCode], [AllocArrayFromCode], [FindFieldFast],
    [FindMethodFast], [UnlockJniSynchronizedMethod] and [CheckSuspend].

    The header is glue between compiled code and services declared in other
    headers (class linker, mirror classes, thread).  Those services are taken
    as a record of collaborators; the managed heap is a store addressed by
    pointers, and every call into a service that may change the store is
    recorded in a trace so that frame properties can be stated. *)

From stdpp Require Import base option list gmap strings pretty.
From Stdlib Require Import ZArith Lia.

Local Open Scope string_scope.
Local Open Scope list_scope.
Local Open Scope Z_scope.

(** ** Pointers and the mirror data model *)

Definition ClassPtr := nat.
Definition FieldPtr := nat.
Definition MethodPtr := nat.
Definition ObjectPtr := nat.
Definition jobject := nat.

(** A C++ pointer that may be null is an [option]; [NULL] is [None]. *)
Abbreviation NULL := None (only parsing).

(** Modelled from the spec: the class status enumeration lives in
    mirror/class.h, which is not part of this source slice.  The spec gives
    the initialization state as uninitialized / initializing / initialized /
    erroneous. *)
Inductive Status := kStatusError | kStatusNotReady | kStatusInitializing | kStatusInitialized.

(** Modelled from the spec: access flags carry static/instance, final and
    visibility; the bit layout (modifiers.h) is not part of this slice. *)
Inductive Visibility := AccPublic | AccProtected | AccPackage | AccPrivate.

Record AccessFlags := {
  acc_static : bool;
  acc_final : bool;
  acc_visibility : Visibility
}.

(** Modelled from the spec: a Class has an initialization state, an
    instantiability flag, a superclass relationship, a virtual dispatch table
    (ordered sequence of resolved methods) and a resolution cache keyed by
    constant-pool index. *)
Record DexCache := {
  resolved_fields_ : gmap N FieldPtr;
  resolved_methods_ : gmap N MethodPtr
}.

Record Class := {
  status_ : Status;
  instantiable_ : bool;
  array_class_ : bool;
  super_class_ : option ClassPtr;
  vtable_ : list MethodPtr;
  dex_cache_ : DexCache
}.

(** Modelled from the spec: a Field has a declaring class, access flags, a
    primitive-vs-object classification and a storage size. *)
Record Field := {
  field_declaring_class_ : ClassPtr;
  field_access_flags_ : AccessFlags;
  field_is_primitive_type_ : bool;
  field_size_ : N
}.

(** Modelled from the spec: a Method has a declaring class, access flags and
    an index into the dispatch table; it also reaches the resolved-types
    cache of its dex cache. *)
Record AbstractMethod := {
  method_declaring_class_ : ClassPtr;
  method_access_flags_ : AccessFlags;
  method_index_ : N;
  dex_cache_resolved_types_ : gmap N ClassPtr
}.

Record Object := {
  klass_ : ClassPtr
}.

(** A throwable is identified by the descriptor of its class and its detail
    message, the two arguments of [Thread::ThrowNewException]. *)
Record Throwable := {
  descriptor_ : string;
  detail_message_ : string
}.

(** Modelled from the spec: the calling thread holds at most one pending
    exception and two independent request flags. *)
Inductive ThreadFlag := kSuspendRequest | kCheckpointRequest.

Record Thread := {
  exception_ : option Throwable;
  suspend_request_ : bool;
  checkpoint_request_ : bool
}.

(** The store the routines run against: the mirror heap and the calling
    thread ([self]). *)
Record Runtime := {
  classes : ClassPtr -> Class;
  fields : FieldPtr -> Field;
  methods : MethodPtr -> AbstractMethod;
  objects : ObjectPtr -> Object;
  self : Thread
}.

(** invoke_type.h is not part of this slice; the spec lists the five dispatch
    kinds. *)
Inductive InvokeType := kStatic | kDirect | kVirtual | kSuper | kInterface.

(** [enum FindFieldType] of runtime_support.h. *)
Inductive FindFieldType :=
| InstanceObjectRead
| InstanceObjectWrite
| InstancePrimitiveRead
| InstancePrimitiveWrite
| StaticObjectRead
| StaticObjectWrite
| StaticPrimitiveRead
| StaticPrimitiveWrite.

Global Instance Status_eq_dec : EqDecision Status.
Proof. solve_decision. Defined.
Global Instance InvokeType_eq_dec : EqDecision InvokeType.
Proof. solve_decision. Defined.
Global Instance ThreadFlag_eq_dec : EqDecision ThreadFlag.
Proof. solve_decision. Defined.

(** ** Calls into services and their trace *)

Inductive Event :=
| EvResolveType (type_idx : N) (method : MethodPtr)
| EvEnsureInitialized (klass : ClassPtr)
| EvAllocObject (klass : ClassPtr)
| EvArrayAlloc (klass : ClassPtr) (component_count : Z)
| EvMonitorExit (obj : ObjectPtr)
| EvRunCheckpointFunction
| EvFullSuspendCheck.

Global Instance Event_eq_dec : EqDecision Event.
Proof. solve_decision. Defined.

Record State := {
  runtime : Runtime;
  trace : list Event
}.

(** How a routine ends: it returns to its caller, the process is aborted
    (LOG(FATAL), a failed CHECK), or it runs into behaviour C++ leaves
    undefined (a member call through a null pointer, an index outside a
    table whose accessor is not in this slice). *)
Inductive Outcome (A : Type) :=
| Returns (a : A) (s : State)
| Fatal (diagnostic : string) (s : State)
| Undefined.
Arguments Returns {A} a s.
Arguments Fatal {A} diagnostic s.
Arguments Undefined {A}.

Definition M (A : Type) : Type := State -> Outcome A.

Global Instance M_ret : MRet M := fun A a s => Returns a s.
Global Instance M_bind : MBind M := fun A B k m s =>
  match m s with
  | Returns a s' => k a s'
  | Fatal d s' => Fatal d s'
  | Undefined => Undefined
  end.

(** Read the store. *)
Definition gets {A} (f : Runtime -> A) : M A :=
  fun s => Returns (f (runtime s)) s.

(** Change the store without calling a service. *)
Definition modify (f : Runtime -> Runtime) : M unit :=
  fun s => Returns tt {| runtime := f (runtime s); trace := trace s |}.

(** Call a service: the service acts on the store, the call is traced. *)
Definition call {A} (ev : Event) (f : Runtime -> A * Runtime) : M A :=
  fun s => let '(a, r) := f (runtime s) in
           Returns a {| runtime := r; trace := trace s ++ [ev] |}.

Definition fatal {A} (diagnostic : string) : M A :=
  fun s => Fatal diagnostic s.

Definition undefined {A} : M A := fun _ => Undefined.

(** [p->...] through a pointer that may be null. *)
Definition deref {A} (p : option A) : M A :=
  match p with
  | Some a => mret a
  | None => undefined
  end.

(** ** The calling thread *)

Definition set_exception (e : option Throwable) (r : Runtime) : Runtime :=
  {| classes := classes r; fields := fields r; methods := methods r;
     objects := objects r;
     self := {| exception_ := e;
                suspend_request_ := suspend_request_ (self r);
                checkpoint_request_ := checkpoint_request_ (self r) |} |}.

Definition read_flag (f : ThreadFlag) (t : Thread) : bool :=
  match f with
  | kSuspendRequest => suspend_request_ t
  | kCheckpointRequest => checkpoint_request_ t
  end.

Definition clear_flag (f : ThreadFlag) (r : Runtime) : Runtime :=
  {| classes := classes r; fields := fields r; methods := methods r;
     objects := objects r;
     self := match f with
             | kSuspendRequest =>
                 {| exception_ := exception_ (self r);
                    suspend_request_ := false;
                    checkpoint_request_ := checkpoint_request_ (self r) |}
             | kCheckpointRequest =>
                 {| exception_ := exception_ (self r);
                    suspend_request_ := suspend_request_ (self r);
                    checkpoint_request_ := false |}
             end |}.

(** Modelled from the spec: [Thread] is declared in thread.h, which is not
    part of this slice.  The spec gives the pending exception as a per-thread
    slot with save, clear and restore operations, and the request flags as
    independent booleans that are read and cleared. *)
Definition IsExceptionPending : M bool :=
  gets (fun r => bool_decide (is_Some (exception_ (self r)))).
Definition GetException : M (option Throwable) :=
  gets (fun r => exception_ (self r)).
Definition ClearException : M unit := modify (set_exception NULL).
Definition SetException (e : Throwable) : M unit := modify (set_exception (Some e)).

(** [self->ThrowNewException(descriptor, msg)]: the new throwable becomes the
    pending exception of the thread. *)
Definition ThrowNewException (descriptor msg : string) : M unit :=
  modify (set_exception (Some {| descriptor_ := descriptor; detail_message_ := msg |})).

(** [self->ThrowNewExceptionF(descriptor, "%d", n)]. *)
Definition ThrowNewExceptionF_d (descriptor : string) (n : Z) : M unit :=
  ThrowNewException descriptor (pretty n).

Definition ReadFlag (f : ThreadFlag) : M bool := gets (fun r => read_flag f (self r)).
Definition AtomicClearFlag (f : ThreadFlag) : M unit := modify (clear_flag f).

(** ** Collaborators

    Everything the header calls but does not define.  Queries read the
    store; services return a result and the store they leave behind. *)
Record Services := {
  (* build configuration: DCHECK is compiled in only in debug builds *)
  kIsDebugBuild : bool;
  (* mirror::Class, mirror::AbstractMethod *)
  CanAccess : Runtime -> ClassPtr -> ClassPtr -> bool;
  CanAccessMember : Runtime -> ClassPtr -> ClassPtr -> AccessFlags -> bool;
  CheckIncompatibleClassChange : Runtime -> MethodPtr -> InvokeType -> bool;
  FindVirtualMethodForInterface : Runtime -> ClassPtr -> MethodPtr -> option MethodPtr;
  (* ClassLinker *)
  ResolveType : N -> MethodPtr -> Runtime -> option ClassPtr * Runtime;
  EnsureInitialized : ClassPtr -> bool -> bool -> Runtime -> bool * Runtime;
  (* object layout / GC *)
  AllocObject : ClassPtr -> Runtime -> option ObjectPtr * Runtime;
  Array_Alloc : ClassPtr -> Z -> Runtime -> option ObjectPtr * Runtime;
  (* JNI and monitors *)
  DecodeJObject : Runtime -> jobject -> option ObjectPtr;
  MonitorExit : ObjectPtr -> Runtime -> unit * Runtime;
  (* thread suspension *)
  RunCheckpointFunction : Runtime -> unit * Runtime;
  FullSuspendCheck : Runtime -> unit * Runtime;
  (* diagnostics *)
  PrettyDescriptor : Runtime -> ClassPtr -> string;
  PrettyClass : Runtime -> ClassPtr -> string;
  IllegalAccessErrorClass_msg : Runtime -> ClassPtr -> ClassPtr -> string;
  Dump : Throwable -> string
}.

Definition newline : string := String (Ascii.ascii_of_nat 10) EmptyString.

Section RuntimeSupport.
Context (sv : Services).

(** DCHECK(cond): aborts in a debug build when [cond] is false, compiled out
    otherwise. *)
Definition DCHECK (cond : bool) : M unit :=
  if kIsDebugBuild sv && negb cond then fatal "Check failed" else mret tt.

(** CHECK(cond) << msg: aborts with [msg] when [cond] is false. *)
Definition CHECK (cond : bool) (msg : string) : M unit :=
  if negb cond then fatal msg else mret tt.

(** Modelled from the spec: [ThrowIllegalAccessErrorClass] is declared in
    common_throws.h, which is not part of this slice; the spec says the call
    fails with IllegalAccessError.  The text of the message is left to the
    collaborators. *)
Definition ThrowIllegalAccessErrorClass (referrer klass : ClassPtr) : M unit :=
  msg ← gets (fun r => IllegalAccessErrorClass_msg sv r referrer klass);
  ThrowNewException "Ljava/lang/IllegalAccessError;" msg.

(** Getters of the mirror classes. *)
Definition GetDexCacheResolvedTypes_Get (method : MethodPtr) (type_idx : N) : M (option ClassPtr) :=
  gets (fun r => dex_cache_resolved_types_ (methods r method) !! type_idx).

Definition Method_GetDeclaringClass (method : MethodPtr) : M ClassPtr :=
  gets (fun r => method_declaring_class_ (methods r method)).

Definition GetResolvedField (klass : ClassPtr) (field_idx : N) : M (option FieldPtr) :=
  gets (fun r => resolved_fields_ (dex_cache_ (classes r klass)) !! field_idx).

Definition GetResolvedMethod (klass : ClassPtr) (method_idx : N) : M (option MethodPtr) :=
  gets (fun r => resolved_methods_ (dex_cache_ (classes r klass)) !! method_idx).

Definition IsInstantiable (klass : ClassPtr) : M bool :=
  gets (fun r => instantiable_ (classes r klass)).

Definition IsArrayClass (klass : ClassPtr) : M bool :=
  gets (fun r => array_class_ (classes r klass)).

(** Modelled from the spec: a class is initialized when its state is
    "initialized", and initializing when it is at least "initializing". *)
Definition status_is_initialized (st : Status) : bool :=
  match st with kStatusInitialized => true | _ => false end.

Definition status_is_initializing (st : Status) : bool :=
  match st with kStatusInitializing | kStatusInitialized => true | _ => false end.

Definition IsInitialized (klass : ClassPtr) : M bool :=
  gets (fun r => status_is_initialized (status_ (classes r klass))).

Definition IsInitializing (klass : ClassPtr) : M bool :=
  gets (fun r => status_is_initializing (status_ (classes r klass))).

(** Modelled from the spec: [ObjectArray::Get] is not part of this slice; the
    spec describes the dispatch table as an ordered sequence indexed by the
    slot.  An index outside the table is given no meaning here. *)
Definition VTable_Get (klass : ClassPtr) (i : N) : M (option MethodPtr) :=
  vtable ← gets (fun r => vtable_ (classes r klass));
  match vtable !! N.to_nat i with
  | Some m => mret (Some m)
  | None => undefined
  end.

(** *** AllocObjectFromCode (lines 56-87) *)
Definition AllocObjectFromCode (type_idx : N) (method : MethodPtr)
    (access_check : bool) : M (option ObjectPtr) :=
  let with_class (klass : ClassPtr) : M (option ObjectPtr) :=
    let initialize_and_allocate : M (option ObjectPtr) :=
      initialized ← IsInitialized klass;
      ok ← (if negb initialized
             then call (EvEnsureInitialized klass) (EnsureInitialized sv klass true true)
             else mret true);
      if negb ok then
        pending ← IsExceptionPending;
        DCHECK pending;;
        mret NULL
      else
        call (EvAllocObject klass) (AllocObject sv klass) in
    if access_check then
      instantiable ← IsInstantiable klass;
      if negb instantiable then
        descr ← gets (fun r => PrettyDescriptor sv r klass);
        ThrowNewException "Ljava/lang/InstantiationError;" descr;;
        mret NULL
      else
        referrer ← Method_GetDeclaringClass method;
        accessible ← gets (fun r => CanAccess sv r referrer klass);
        if negb accessible then
          ThrowIllegalAccessErrorClass referrer klass;;
          mret NULL
        else initialize_and_allocate
    else initialize_and_allocate in
  cached ← GetDexCacheResolvedTypes_Get method type_idx;
  match cached with
  | Some klass => with_class klass
  | None =>
      resolved ← call (EvResolveType type_idx method) (ResolveType sv type_idx method);
      match resolved with
      | None =>
          pending ← IsExceptionPending;
          DCHECK pending;;
          mret NULL
      | Some klass => with_class klass
      end
  end.

(** *** AllocArrayFromCode (lines 93-118) *)
Definition AllocArrayFromCode (type_idx : N) (method : MethodPtr)
    (component_count : Z) (access_check : bool) : M (option ObjectPtr) :=
  let with_class (klass : ClassPtr) : M (option ObjectPtr) :=
    let allocate : M (option ObjectPtr) :=
      call (EvArrayAlloc klass component_count) (Array_Alloc sv klass component_count) in
    if access_check then
      referrer ← Method_GetDeclaringClass method;
      accessible ← gets (fun r => CanAccess sv r referrer klass);
      if negb accessible then
        ThrowIllegalAccessErrorClass referrer klass;;
        mret NULL
      else allocate
    else allocate in
  if component_count <? 0 then
    ThrowNewExceptionF_d "Ljava/lang/NegativeArraySizeException;" component_count;;
    mret NULL
  else
    cached ← GetDexCacheResolvedTypes_Get method type_idx;
    match cached with
    | Some klass => with_class klass
    | None =>
        resolved ← call (EvResolveType type_idx method) (ResolveType sv type_idx method);
        match resolved with
        | None =>
            pending ← IsExceptionPending;
            DCHECK pending;;
            mret NULL
        | Some klass =>
            is_array ← IsArrayClass klass;
            pretty_class ← gets (fun r => PrettyClass sv r klass);
            CHECK is_array pretty_class;;
            with_class klass
        end
    end.

(** *** FindFieldFast (lines 143-191) *)

Definition Field_GetDeclaringClass (f : FieldPtr) : M ClassPtr :=
  gets (fun r => field_declaring_class_ (fields r f)).
Definition Field_GetAccessFlags (f : FieldPtr) : M AccessFlags :=
  gets (fun r => field_access_flags_ (fields r f)).
Definition Field_IsStatic (f : FieldPtr) : M bool :=
  gets (fun r => acc_static (field_access_flags_ (fields r f))).
Definition Field_IsFinal (f : FieldPtr) : M bool :=
  gets (fun r => acc_final (field_access_flags_ (fields r f))).
(** [FieldHelper fh(resolved_field)]: [fh.IsPrimitiveType()], [fh.FieldSize()]. *)
Definition FieldHelper_IsPrimitiveType (f : FieldPtr) : M bool :=
  gets (fun r => field_is_primitive_type_ (fields r f)).
Definition FieldHelper_FieldSize (f : FieldPtr) : M N :=
  gets (fun r => field_size_ (fields r f)).

(** The [switch (type)] of lines 161-172: (is_primitive, is_set, is_static). *)
Definition find_field_switch (type : FindFieldType) : bool * bool * bool :=
  match type with
  | InstanceObjectRead     => (false, false, false)
  | InstanceObjectWrite    => (false, true,  false)
  | InstancePrimitiveRead  => (true,  false, false)
  | InstancePrimitiveWrite => (true,  true,  false)
  | StaticObjectRead       => (false, false, true)
  | StaticObjectWrite      => (false, true,  true)
  | StaticPrimitiveRead    => (true,  false, true)
  | StaticPrimitiveWrite   => (true,  true,  true)
  end.

Definition FindFieldFast (field_idx : N) (referrer : MethodPtr)
    (type : FindFieldType) (expected_size : N) : M (option FieldPtr) :=
  declaring_class ← Method_GetDeclaringClass referrer;
  resolved ← GetResolvedField declaring_class field_idx;
  match resolved with
  | None => mret NULL
  | Some resolved_field =>
      fields_class ← Field_GetDeclaringClass resolved_field;
      initializing ← IsInitializing fields_class;
      if negb initializing then mret NULL
      else
        let '(is_primitive, is_set, is_static) := find_field_switch type in
        field_is_static ← Field_IsStatic resolved_field;
        if negb (eqb field_is_static is_static) then mret NULL
        else
          referring_class ← Method_GetDeclaringClass referrer;
          can_access ← gets (fun r => CanAccess sv r referring_class fields_class);
          flags ← Field_GetAccessFlags resolved_field;
          can_access_member ←
            gets (fun r => CanAccessMember sv r referring_class fields_class flags);
          is_final ← Field_IsFinal resolved_field;
          if negb can_access || negb can_access_member ||
             (is_set && is_final && negb (bool_decide (fields_class = referring_class)))
          then mret NULL
          else
            fh_primitive ← FieldHelper_IsPrimitiveType resolved_field;
            fh_size ← FieldHelper_FieldSize resolved_field;
            if negb (eqb fh_primitive is_primitive) || negb (fh_size =? expected_size)%N
            then mret NULL
            else mret (Some resolved_field)
  end.

(** *** FindMethodFast (lines 194-234) *)

Definition Method_GetAccessFlags (m : MethodPtr) : M AccessFlags :=
  gets (fun r => method_access_flags_ (methods r m)).
Definition GetMethodIndex (m : MethodPtr) : M N :=
  gets (fun r => method_index_ (methods r m)).
Definition Object_GetClass (o : ObjectPtr) : M ClassPtr :=
  gets (fun r => klass_ (objects r o)).
Definition GetSuperClass (klass : ClassPtr) : M (option ClassPtr) :=
  gets (fun r => super_class_ (classes r klass)).

Definition FindMethodFast (method_idx : N) (this_object : option ObjectPtr)
    (referrer : MethodPtr) (access_check : bool) (type : InvokeType)
    : M (option MethodPtr) :=
  let is_direct := bool_decide (type = kStatic) || bool_decide (type = kDirect) in
  if bool_decide (this_object = NULL) && negb is_direct then mret NULL
  else
    declaring_class ← Method_GetDeclaringClass referrer;
    resolved ← GetResolvedMethod declaring_class method_idx;
    match resolved with
    | None => mret NULL
    | Some resolved_method =>
        let dispatch : M (option MethodPtr) :=
          if bool_decide (type = kInterface) then
            this ← deref this_object;
            klass ← Object_GetClass this;
            gets (fun r => FindVirtualMethodForInterface sv r klass resolved_method)
          else if is_direct then
            mret (Some resolved_method)
          else if bool_decide (type = kSuper) then
            referrer_class ← Method_GetDeclaringClass referrer;
            super ← GetSuperClass referrer_class;
            super_class ← deref super;
            index ← GetMethodIndex resolved_method;
            VTable_Get super_class index
          else
            DCHECK (bool_decide (type = kVirtual));;
            this ← deref this_object;
            klass ← Object_GetClass this;
            index ← GetMethodIndex resolved_method;
            VTable_Get klass index in
        if access_check then
          icce ← gets (fun r => CheckIncompatibleClassChange sv r resolved_method type);
          if (icce : bool) then mret NULL
          else
            methods_class ← Method_GetDeclaringClass resolved_method;
            referring_class ← Method_GetDeclaringClass referrer;
            can_access ← gets (fun r => CanAccess sv r referring_class methods_class);
            flags ← Method_GetAccessFlags resolved_method;
            can_access_member ←
              gets (fun r => CanAccessMember sv r referring_class methods_class flags);
            if negb can_access || negb can_access_member then mret NULL
            else dispatch
        else dispatch
    end.

(** *** UnlockJniSynchronizedMethod (lines 255-276) *)

Definition double_fault_diagnostic (saved second : Throwable) : string :=
  "Synchronized JNI code returning with an exception:" +:+ newline +:+
  Dump sv saved +:+ newline +:+
  "Encountered second exception during implicit MonitorExit:" +:+ newline +:+
  Dump sv second.

Definition UnlockJniSynchronizedMethod (locked : jobject) : M unit :=
  pending ← IsExceptionPending;
  saved_exception ←
    (if (pending : bool) then
       e ← GetException;
       ClearException;;
       mret e
     else mret NULL);
  decoded ← gets (fun r => DecodeJObject sv r locked);
  obj ← deref decoded;
  call (EvMonitorExit obj) (MonitorExit sv obj);;
  pending_after ← IsExceptionPending;
  (if (pending_after : bool) then
     saved ← deref saved_exception;
     current ← GetException;
     second ← deref current;
     fatal (double_fault_diagnostic saved second)
   else mret tt);;
  match saved_exception with
  | Some e => SetException e
  | None => mret tt
  end.

(** *** CheckSuspend (lines 298-309) *)

(** One turn of the [for (;;)] loop; the result says whether the loop goes
    round again ([true]) or reaches [break] ([false]). *)
Definition CheckSuspend_iteration : M bool :=
  checkpoint ← ReadFlag kCheckpointRequest;
  if (checkpoint : bool) then
    call EvRunCheckpointFunction (RunCheckpointFunction sv);;
    AtomicClearFlag kCheckpointRequest;;
    mret true
  else
    suspend ← ReadFlag kSuspendRequest;
    if (suspend : bool) then
      call EvFullSuspendCheck (FullSuspendCheck sv);;
      mret true
    else mret false.

(** The loop, bounded by [fuel] turns; [None] when the bound is reached
    before the loop breaks. *)
Fixpoint CheckSuspend (fuel : nat) (s : State) : option (Outcome unit) :=
  match fuel with
  | O => None
  | S fuel' =>
      match CheckSuspend_iteration s with
      | Returns true s' => CheckSuspend fuel' s'
      | Returns false s' => Some (Returns tt s')
      | Fatal d s' => Some (Fatal d s')
      | Undefined => Some Undefined
      end
  end.

End RuntimeSupport.

Arguments AllocObjectFromCode sv type_idx%_N method%_nat access_check s.
Arguments AllocArrayFromCode sv type_idx%_N method%_nat component_count%_Z access_check s.
Arguments FindFieldFast sv field_idx%_N referrer%_nat type expected_size%_N s.
Arguments FindMethodFast sv method_idx%_N this_object referrer%_nat access_check type s.
Arguments UnlockJniSynchronizedMethod sv locked%_nat s.
Arguments CheckSuspend sv fuel%_nat s.

(** ** Reading off an outcome *)

(** The state a routine leaves behind, when it leaves one. *)
Definition final_state {A} (o : Outcome A) : option State :=
  match o with
  | Returns _ s => Some s
  | Fatal _ s => Some s
  | Undefined => None
  end.

Definition is_EnsureInitialized (ev : Event) : bool :=
  match ev with EvEnsureInitialized _ => true | _ => false end.

Definition is_ResolveType (ev : Event) : bool :=
  match ev with EvResolveType _ _ => true | _ => false end.

(** A resolver call counter: the number of [ResolveType] calls in a trace. *)
Definition resolver_calls (t : list Event) : nat :=
  length (filter (fun ev => is_ResolveType ev = true) t).

(** The number of times the checkpoint function ran. *)
Definition checkpoint_runs (t : list Event) : nat :=
  length (filter (fun ev => ev = EvRunCheckpointFunction) t).

(** The resolution-cache slots the fast paths read. *)
Definition field_cache_slot (r : Runtime) (referrer : MethodPtr) (field_idx : N)
    : option FieldPtr :=
  resolved_fields_ (dex_cache_ (classes r (method_declaring_class_ (methods r referrer))))
    !! field_idx.

Definition method_cache_slot (r : Runtime) (referrer : MethodPtr) (method_idx : N)
    : option MethodPtr :=
  resolved_methods_ (dex_cache_ (classes r (method_declaring_class_ (methods r referrer))))
    !! method_idx.

Definition type_cache_slot (r : Runtime) (method : MethodPtr) (type_idx : N)
    : option ClassPtr :=
  dex_cache_resolved_types_ (methods r method) !! type_idx.

(** What a [FindFieldType] asks for, read off the [switch] of
    [FindFieldFast]. *)
Definition requests_primitive (type : FindFieldType) : bool := (find_field_switch type).1.1.
Definition requests_write (type : FindFieldType) : bool := (find_field_switch type).1.2.
Definition requests_static (type : FindFieldType) : bool := (find_field_switch type).2.

(** The gates of [FindFieldFast] on a cached field, each as a test on the
    store. *)
Section FieldGates.
Context (sv : Services) (r : Runtime) (referrer : MethodPtr) (f : FieldPtr).

Definition field_class : ClassPtr := field_declaring_class_ (fields r f).
Definition referring_class : ClassPtr := method_declaring_class_ (methods r referrer).

Definition gate_initializing : bool :=
  status_is_initializing (status_ (classes r field_class)).

Definition gate_static (type : FindFieldType) : bool :=
  eqb (acc_static (field_access_flags_ (fields r f))) (requests_static type).

Definition gate_class_access : bool := CanAccess sv r referring_class field_class.

Definition gate_member_access : bool :=
  CanAccessMember sv r referring_class field_class (field_access_flags_ (fields r f)).

(** A write to a final field is allowed only from the declaring class. *)
Definition gate_final_write (type : FindFieldType) : bool :=
  negb (requests_write type && acc_final (field_access_flags_ (fields r f)) &&
        negb (bool_decide (field_class = referring_class))).

Definition gate_primitive (type : FindFieldType) : bool :=
  eqb (field_is_primitive_type_ (fields r f)) (requests_primitive type).

Definition gate_size (expected_size : N) : bool :=
  (field_size_ (fields r f) =? expected_size)%N.
End FieldGates.

(** The same collaborators with the three access tests replaced. *)
Definition with_access_policy
    (icce : Runtime -> MethodPtr -> InvokeType -> bool)
    (can_access : Runtime -> ClassPtr -> ClassPtr -> bool)
    (can_access_member : Runtime -> ClassPtr -> ClassPtr -> AccessFlags -> bool)
    (sv : Services) : Services :=
  {| kIsDebugBuild := kIsDebugBuild sv;
     CanAccess := can_access;
     CanAccessMember := can_access_member;
     CheckIncompatibleClassChange := icce;
     FindVirtualMethodForInterface := FindVirtualMethodForInterface sv;
     ResolveType := ResolveType sv;
     EnsureInitialized := EnsureInitialized sv;
     AllocObject := AllocObject sv;
     Array_Alloc := Array_Alloc sv;
     DecodeJObject := DecodeJObject sv;
     MonitorExit := MonitorExit sv;
     RunCheckpointFunction := RunCheckpointFunction sv;
     FullSuspendCheck := FullSuspendCheck sv;
     PrettyDescriptor := PrettyDescriptor sv;
     PrettyClass := PrettyClass sv;
     IllegalAccessErrorClass_msg := IllegalAccessErrorClass_msg sv;
     Dump := Dump sv |}.

(** The access tests of [FindMethodFast] on a cached method. *)
Definition method_access_ok (sv : Services) (r : Runtime) (referrer resolved : MethodPtr)
    (type : InvokeType) : bool :=
  negb (CheckIncompatibleClassChange sv r resolved type) &&
  CanAccess sv r (method_declaring_class_ (methods r referrer))
                 (method_declaring_class_ (methods r resolved)) &&
  CanAccessMember sv r (method_declaring_class_ (methods r referrer))
                       (method_declaring_class_ (methods r resolved))
                       (method_access_flags_ (methods r resolved)).

Definition is_direct (type : InvokeType) : bool :=
  bool_decide (type = kStatic) || bool_decide (type = kDirect).

(** The final step of method lookup as the spec words it: static and direct
    keep the cached method; interface asks the interface table of the
    receiver's runtime class; super reads the dispatch table of the referring
    class's superclass at the cached method's slot; virtual reads the
    dispatch table of the receiver's runtime class at that slot.  The outer
    [None] marks the cases the spec gives no result for (no receiver, no
    superclass, slot outside the table). *)
Definition dispatch_spec (sv : Services) (r : Runtime) (type : InvokeType)
    (cached : MethodPtr) (this_object : option ObjectPtr) (referrer : MethodPtr)
    : option (option MethodPtr) :=
  let slot := N.to_nat (method_index_ (methods r cached)) in
  match type with
  | kStatic | kDirect => Some (Some cached)
  | kInterface =>
      match this_object with
      | Some o => Some (FindVirtualMethodForInterface sv r (klass_ (objects r o)) cached)
      | None => None
      end
  | kSuper =>
      match super_class_ (classes r (method_declaring_class_ (methods r referrer))) with
      | Some super => Some <$> vtable_ (classes r super) !! slot
      | None => None
      end
  | kVirtual =>
      match this_object with
      | Some o => Some <$> vtable_ (classes r (klass_ (objects r o))) !! slot
      | None => None
      end
  end.

Definition dispatch_outcome (sv : Services) (type : InvokeType) (cached : MethodPtr)
    (this_object : option ObjectPtr) (referrer : MethodPtr) (s : State)
    : Outcome (option MethodPtr) :=
  match dispatch_spec sv (runtime s) type cached this_object referrer with
  | Some m => Returns m s
  | None => Undefined
  end.

(** Where the class of an allocation comes from: the resolution cache or,
    on a miss, the class linker.  Gives the class (if any) and the state in
    which the allocation routine goes on. *)
Definition resolve_for_alloc (sv : Services) (type_idx : N) (method : MethodPtr)
    (s : State) : option ClassPtr * State :=
  match type_cache_slot (runtime s) method type_idx with
  | Some klass => (Some klass, s)
  | None =>
      let '(resolved, r) := ResolveType sv type_idx method (runtime s) in
      (resolved, {| runtime := r; trace := trace s ++ [EvResolveType type_idx method] |})
  end.

(** A routine that always ends in a state related to the one it started in
    (whether it returns or aborts) and never runs into undefined
    behaviour. *)
Definition steps (R : State -> State -> Prop) {A} (m : M A) : Prop :=
  forall s, exists s', final_state (m s) = Some s' /\ R s s'.

(** The trace grows by service calls none of which is [EnsureInitialized]. *)
Definition no_initialization (s s' : State) : Prop :=
  exists evs, trace s' = trace s ++ evs /\
              Forall (fun ev => is_EnsureInitialized ev = false) evs.

(** Every class keeps its initialization state. *)
Definition same_status (s s' : State) : Prop :=
  forall c, status_ (classes (runtime s') c) = status_ (classes (runtime s) c).

(** What [AllocArrayFromCode] does once it holds a class: the access test
    when asked for, then the allocation. *)
Definition array_alloc_outcome (sv : Services) (method : MethodPtr) (klass : ClassPtr)
    (component_count : Z) (access_check : bool) (s : State) : Outcome (option ObjectPtr) :=
  let referrer := method_declaring_class_ (methods (runtime s) method) in
  if access_check && negb (CanAccess sv (runtime s) referrer klass) then
    Returns NULL
      {| runtime :=
           set_exception
             (Some {| descriptor_ := "Ljava/lang/IllegalAccessError;";
                      detail_message_ :=
                        IllegalAccessErrorClass_msg sv (runtime s) referrer klass |})
             (runtime s);
         trace := trace s |}
  else
    let '(array, r) := Array_Alloc sv klass component_count (runtime s) in
    Returns array {| runtime := r; trace := trace s ++ [EvArrayAlloc klass component_count] |}.

(** The store in which [UnlockJniSynchronizedMethod] calls monitor exit: a
    pending exception has been saved and cleared. *)
Definition runtime_at_monitor_exit (r : Runtime) : Runtime :=
  match exception_ (self r) with
  | Some _ => set_exception NULL r
  | None => r
  end.

(** ** A small managed world, used to run the routines on concrete inputs *)

Module Sample.

Definition public_instance : AccessFlags :=
  {| acc_static := false; acc_final := false; acc_visibility := AccPublic |}.

Definition public_static_final : AccessFlags :=
  {| acc_static := true; acc_final := true; acc_visibility := AccPublic |}.

(** Class 0: an initialized concrete class whose cache holds type index 0
    (itself), type index 1 (class 1), field index 0 and method index 0.
    Class 1: an abstract class, not yet initialized, subclass of class 0.
    Class 2: an initialized array class. *)
Definition dex_cache0 : DexCache :=
  {| resolved_fields_ := {[ 0%N := 0%nat; 1%N := 1%nat ]};
     resolved_methods_ := {[ 0%N := 0%nat ]} |}.

Definition empty_dex_cache : DexCache :=
  {| resolved_fields_ := ∅; resolved_methods_ := ∅ |}.

Definition class_table (c : ClassPtr) : Class :=
  match c with
  | 0%nat => {| status_ := kStatusInitialized; instantiable_ := true;
                array_class_ := false; super_class_ := NULL;
                vtable_ := [0%nat]; dex_cache_ := dex_cache0 |}
  | 1%nat => {| status_ := kStatusNotReady; instantiable_ := false;
                array_class_ := false; super_class_ := Some 0%nat;
                vtable_ := [1%nat]; dex_cache_ := empty_dex_cache |}
  | _ => {| status_ := kStatusInitialized; instantiable_ := true;
            array_class_ := true; super_class_ := Some 0%nat;
            vtable_ := [0%nat]; dex_cache_ := empty_dex_cache |}
  end.

(** Field 0: an 8-byte primitive instance field of class 0.
    Field 1: a 4-byte static final object field of class 1. *)
Definition field_table (f : FieldPtr) : Field :=
  match f with
  | 0%nat => {| field_declaring_class_ := 0%nat; field_access_flags_ := public_instance;
                field_is_primitive_type_ := true; field_size_ := 8%N |}
  | _ => {| field_declaring_class_ := 1%nat; field_access_flags_ := public_static_final;
            field_is_primitive_type_ := false; field_size_ := 4%N |}
  end.

(** Method 0: declared by class 0, vtable slot 0; method 1 overrides it in
    class 1. *)
Definition method_table (m : MethodPtr) : AbstractMethod :=
  match m with
  | 0%nat => {| method_declaring_class_ := 0%nat; method_access_flags_ := public_instance;
                method_index_ := 0%N;
                dex_cache_resolved_types_ := {[ 0%N := 0%nat; 1%N := 1%nat ]} |}
  | _ => {| method_declaring_class_ := 1%nat; method_access_flags_ := public_instance;
            method_index_ := 0%N; dex_cache_resolved_types_ := ∅ |}
  end.

(** Object 0 is an instance of class 0, every other object of class 1. *)
Definition object_table (o : ObjectPtr) : Object :=
  match o with
  | 0%nat => {| klass_ := 0%nat |}
  | _ => {| klass_ := 1%nat |}
  end.

Definition idle_thread : Thread :=
  {| exception_ := NULL; suspend_request_ := false; checkpoint_request_ := false |}.

Definition heap (t : Thread) : Runtime :=
  {| classes := class_table; fields := field_table; methods := method_table;
     objects := object_table; self := t |}.

Definition state (t : Thread) : State :=
  {| runtime := heap t; trace := [] |}.

Definition s0 : State := state idle_thread.

(** A thread asked to run a checkpoint, one asked to run a checkpoint and to
    suspend, and one returning from native code with an exception pending. *)
Definition checkpoint_thread : Thread :=
  {| exception_ := NULL; suspend_request_ := false; checkpoint_request_ := true |}.

Definition busy_thread : Thread :=
  {| exception_ := NULL; suspend_request_ := true; checkpoint_request_ := true |}.

Definition after_checkpoint : State :=
  {| runtime := clear_flag kCheckpointRequest (heap checkpoint_thread);
     trace := [EvRunCheckpointFunction] |}.

Definition throwing_thread : Thread :=
  {| exception_ := Some {| descriptor_ := "Ljava/lang/RuntimeException;";
                           detail_message_ := "from native code" |};
     suspend_request_ := false; checkpoint_request_ := false |}.

Definition illegal_monitor_state : Throwable :=
  {| descriptor_ := "Ljava/lang/IllegalMonitorStateException;";
     detail_message_ := "unlock of unowned monitor" |}.

Definition no_class_def_found : Throwable :=
  {| descriptor_ := "Ljava/lang/NoClassDefFoundError;"; detail_message_ := "" |}.

(** Collaborators: every access is allowed; the resolver finds the array
    class 2 for type index 2, the plain class 0 for type index 3 and fails
    with NoClassDefFoundError otherwise; monitor exit succeeds on object 0
    and raises IllegalMonitorStateException on any other object; a full
    suspend check returns with the request withdrawn. *)
Definition services : Services :=
  {| kIsDebugBuild := true;
     CanAccess := fun _ _ _ => true;
     CanAccessMember := fun _ _ _ _ => true;
     CheckIncompatibleClassChange := fun _ _ _ => false;
     FindVirtualMethodForInterface := fun _ _ m => Some m;
     ResolveType := fun type_idx _ r =>
       match type_idx with
       | 2%N => (Some 2%nat, r)
       | 3%N => (Some 0%nat, r)
       | _ => (NULL, set_exception (Some no_class_def_found) r)
       end;
     EnsureInitialized := fun _ _ _ r => (true, r);
     AllocObject := fun _ r => (Some 7%nat, r);
     Array_Alloc := fun _ _ r => (Some 8%nat, r);
     DecodeJObject := fun _ j => Some j;
     MonitorExit := fun o r =>
       match o with
       | 0%nat => (tt, r)
       | _ => (tt, set_exception (Some illegal_monitor_state) r)
       end;
     RunCheckpointFunction := fun r => (tt, r);
     FullSuspendCheck := fun r => (tt, clear_flag kSuspendRequest r);
     PrettyDescriptor := fun _ _ => "klass";
     PrettyClass := fun _ _ => "java.lang.Class<klass>";
     IllegalAccessErrorClass_msg := fun _ _ _ => "Illegal class access";
     Dump := fun e => descriptor_ e +:+ ": " +:+ detail_message_ e |}.

(** The same collaborators, but no class may access another and every
    method fails the incompatible-class-change test. *)
Definition strict_services : Services :=
  with_access_policy (fun _ _ _ => true) (fun _ _ _ => false) (fun _ _ _ _ => false)
    services.

End Sample.

(** ** CheckReferenceResult (lines 278-296)

    The check made on the reference a native method returns.  What it calls
    is declared outside this slice: the invalid-reference sentinel, the
    current method and its return type, the instance test, the pretty
    printers and the JNI abort routine.  The abort routine and the
    return-type lookup are taken as computations of their own, free to abort
    the process, to return, and to change the store. *)
Record JniServices := {
  kInvalidIndirectRefObject : ObjectPtr;
  GetCurrentMethod : Runtime -> option MethodPtr;
  GetReturnType : MethodPtr -> M (option ClassPtr);
  InstanceOf : Runtime -> ObjectPtr -> ClassPtr -> bool;
  PrettyMethod : Runtime -> option MethodPtr -> string;
  PrettyTypeOf : Runtime -> ObjectPtr -> string;
  JniAbortF : string -> M unit
}.

Definition CheckReferenceResult (jv : JniServices) (o : option ObjectPtr) : M unit :=
  match o with
  | None => mret tt
  | Some obj =>
      (if bool_decide (obj = kInvalidIndirectRefObject jv) then
         current ← gets (GetCurrentMethod jv);
         method_name ← gets (fun r => PrettyMethod jv r current);
         JniAbortF jv ("invalid reference returned from " +:+ method_name)
       else mret tt);;
      m ← gets (GetCurrentMethod jv);
      method ← deref m;
      return_type ← GetReturnType jv method;
      type ← deref return_type;
      instance ← gets (fun r => InstanceOf jv r obj type);
      if negb instance then
        type_name ← gets (fun r => PrettyTypeOf jv r obj);
        method_name ← gets (fun r => PrettyMethod jv r m);
        JniAbortF jv ("attempt to return an instance of " +:+ type_name +:+
                      " from " +:+ method_name)
      else mret tt
  end.

(** ** Further vocabulary for the properties *)

(** The read request that goes with a field request: same static/instance
    and primitive/object sides, read instead of write. *)
Definition read_variant (type : FindFieldType) : FindFieldType :=
  match type with
  | InstanceObjectRead | InstanceObjectWrite => InstanceObjectRead
  | InstancePrimitiveRead | InstancePrimitiveWrite => InstancePrimitiveRead
  | StaticObjectRead | StaticObjectWrite => StaticObjectRead
  | StaticPrimitiveRead | StaticPrimitiveWrite => StaticPrimitiveRead
  end.

(** A thread has a pending exception. *)
Definition exception_pending (s : State) : Prop :=
  is_Some (exception_ (self (runtime s))).

(** No request flag is up. *)
Definition no_request (s : State) : Prop :=
  checkpoint_request_ (self (runtime s)) = false /\
  suspend_request_ (self (runtime s)) = false.

(** The number of full suspend checks in a trace. *)
Definition suspend_checks (t : list Event) : nat :=
  length (filter (fun ev => ev = EvFullSuspendCheck) t).

(** ** More of the small managed world *)

Module SampleBoundary.

(** The invalid-reference sentinel is object 99; the current method is
    method 0, declared to return class 0; an object is an instance of its
    own class and of class 0; the abort routine ends the process. *)
Definition jni : JniServices :=
  {| kInvalidIndirectRefObject := 99%nat;
     GetCurrentMethod := fun _ => Some 0%nat;
     GetReturnType := fun _ => mret (Some 0%nat);
     InstanceOf := fun r o c =>
       bool_decide (klass_ (objects r o) = c) || bool_decide (c = 0%nat);
     PrettyMethod := fun _ _ => "Object Native.get()";
     PrettyTypeOf := fun _ _ => "java.lang.String";
     JniAbortF := fun msg => fatal msg |}.

(** The same, with method 1 current, declared to return class 2. *)
Definition jni_array : JniServices :=
  {| kInvalidIndirectRefObject := 99%nat;
     GetCurrentMethod := fun _ => Some 1%nat;
     GetReturnType := fun _ => mret (Some 2%nat);
     InstanceOf := InstanceOf jni;
     PrettyMethod := PrettyMethod jni;
     PrettyTypeOf := PrettyTypeOf jni;
     JniAbortF := JniAbortF jni |}.

(** Collaborators whose full suspend check comes back with the suspend
    request still standing. *)
Definition stubborn_services : Services :=
  {| kIsDebugBuild := true;
     CanAccess := CanAccess Sample.services;
     CanAccessMember := CanAccessMember Sample.services;
     CheckIncompatibleClassChange := CheckIncompatibleClassChange Sample.services;
     FindVirtualMethodForInterface := FindVirtualMethodForInterface Sample.services;
     ResolveType := ResolveType Sample.services;
     EnsureInitialized := EnsureInitialized Sample.services;
     AllocObject := AllocObject Sample.services;
     Array_Alloc := Array_Alloc Sample.services;
     DecodeJObject := DecodeJObject Sample.services;
     MonitorExit := MonitorExit Sample.services;
     RunCheckpointFunction := RunCheckpointFunction Sample.services;
     FullSuspendCheck := fun r => (tt, r);
     PrettyDescriptor := PrettyDescriptor Sample.services;
     PrettyClass := PrettyClass Sample.services;
     IllegalAccessErrorClass_msg := IllegalAccessErrorClass_msg Sample.services;
     Dump := Dump Sample.services |}.

Definition suspended_thread : Thread :=
  {| exception_ := NULL; suspend_request_ := true; checkpoint_request_ := false |}.

End SampleBoundary.

(** * Properties *)

(** Unfold the monadic plumbing of a routine applied to a state. *)
Ltac run_M :=
  unfold mbind, M_bind, mret, M_ret, gets, modify, call, fatal, undefined, deref;
  cbn beta iota.

Section Properties.
Context (sv : Services).

(** C2: a negative component count makes [AllocArrayFromCode] fail with
    NegativeArraySizeException whose message is the decimal rendering of the
    count, and no service is called on the way: the trace is the one on
    entry, so the resolver call counter has not moved. *)
Theorem AllocArrayFromCode_negative_count
    (type_idx : N) (method : MethodPtr) (component_count : Z)
    (access_check : bool) (s : State) :
  component_count < 0 ->
  let thrown := {| descriptor_ := "Ljava/lang/NegativeArraySizeException;";
                   detail_message_ := pretty component_count |} in
  AllocArrayFromCode sv type_idx method component_count access_check s =
    Returns NULL {| runtime := set_exception (Some thrown) (runtime s);
                    trace := trace s |} /\
  (forall n : Z, pretty n = detail_message_ thrown -> n = component_count) /\
  forall a s', AllocArrayFromCode sv type_idx method component_count access_check s =
                 Returns a s' ->
    a = NULL /\ exception_ (self (runtime s')) = Some thrown /\
    resolver_calls (trace s') = resolver_calls (trace s).
Proof.
  intros Hneg thrown.
  assert (Hrun : AllocArrayFromCode sv type_idx method component_count access_check s =
    Returns NULL {| runtime := set_exception (Some thrown) (runtime s);
                    trace := trace s |}).
  { unfold AllocArrayFromCode.
    destruct (Z.ltb_spec component_count 0) as [_|Hge]; [|lia].
    reflexivity. }
  split; [exact Hrun|]. split.
  - intros n Hn. apply (inj pretty). exact Hn.
  - intros a s' Hret. rewrite Hrun in Hret. injection Hret as <- <-.
    repeat split.
Qed.

(** On a cache hit [FindFieldFast] returns the cached field exactly when all
    gates hold, and the store is the one on entry either way. *)
Lemma FindFieldFast_hit (field_idx : N) (referrer : MethodPtr) (type : FindFieldType)
    (expected_size : N) (s : State) (f : FieldPtr) :
  field_cache_slot (runtime s) referrer field_idx = Some f ->
  FindFieldFast sv field_idx referrer type expected_size s =
    Returns (if gate_initializing (runtime s) f && gate_static (runtime s) f type &&
                gate_class_access sv (runtime s) referrer f &&
                gate_member_access sv (runtime s) referrer f &&
                gate_final_write (runtime s) referrer f type &&
                gate_primitive (runtime s) f type && gate_size (runtime s) f expected_size
             then Some f else NULL) s.
Proof.
  unfold field_cache_slot. intros Hslot.
  unfold FindFieldFast, Method_GetDeclaringClass, GetResolvedField. run_M.
  rewrite Hslot.
  unfold Field_GetDeclaringClass, IsInitializing, Field_IsStatic, Field_GetAccessFlags,
    Field_IsFinal, FieldHelper_IsPrimitiveType, FieldHelper_FieldSize. run_M.
  unfold gate_initializing, gate_static, gate_class_access, gate_member_access,
    gate_final_write, gate_primitive, gate_size, requests_primitive, requests_write,
    requests_static, field_class, referring_class.
  destruct (status_is_initializing _); cbn [negb andb]; [|reflexivity].
  destruct (find_field_switch type) as [[is_primitive is_set] is_static]. cbn [fst snd].
  destruct (eqb (acc_static _) is_static); cbn [negb andb]; [|reflexivity].
  destruct (CanAccess sv _ _ _); cbn [negb andb orb]; [|reflexivity].
  destruct (CanAccessMember sv _ _ _ _); cbn [negb andb orb]; [|reflexivity].
  destruct (is_set && acc_final _ && negb _); cbn [negb andb orb]; [reflexivity|].
  destruct (eqb (field_is_primitive_type_ _) is_primitive); cbn [negb andb orb];
    [|reflexivity].
  destruct (_ =? _)%N; reflexivity.
Qed.

(** On a cache miss both fast paths give up at once. *)
Lemma FindFieldFast_miss (field_idx : N) (referrer : MethodPtr) (type : FindFieldType)
    (expected_size : N) (s : State) :
  field_cache_slot (runtime s) referrer field_idx = NULL ->
  FindFieldFast sv field_idx referrer type expected_size s = Returns NULL s.
Proof.
  unfold field_cache_slot. intros Hslot.
  unfold FindFieldFast, Method_GetDeclaringClass, GetResolvedField. run_M.
  rewrite Hslot. reflexivity.
Qed.

Lemma FindMethodFast_miss (method_idx : N) (this_object : option ObjectPtr)
    (referrer : MethodPtr) (access_check : bool) (type : InvokeType) (s : State) :
  method_cache_slot (runtime s) referrer method_idx = NULL ->
  FindMethodFast sv method_idx this_object referrer access_check type s = Returns NULL s.
Proof.
  unfold method_cache_slot. intros Hslot.
  unfold FindMethodFast, Method_GetDeclaringClass, GetResolvedMethod. run_M.
  destruct (bool_decide (this_object = NULL) && negb _); [reflexivity|].
  rewrite Hslot. reflexivity.
Qed.

(** C4: when the resolution-cache slot of an index is empty, [FindFieldFast]
    and [FindMethodFast] return NULL and hand back the very state they were
    given: no pending exception is set, no cache slot is written, no class
    state changes and no service is called. *)
Theorem fast_path_cache_miss_is_silent
    (field_idx method_idx : N) (referrer : MethodPtr) (type : FindFieldType)
    (expected_size : N) (this_object : option ObjectPtr) (access_check : bool)
    (invoke : InvokeType) (s : State) :
  field_cache_slot (runtime s) referrer field_idx = NULL ->
  method_cache_slot (runtime s) referrer method_idx = NULL ->
  FindFieldFast sv field_idx referrer type expected_size s = Returns NULL s /\
  FindMethodFast sv method_idx this_object referrer access_check invoke s = Returns NULL s.
Proof.
  intros Hf Hm. split.
  - apply FindFieldFast_miss; assumption.
  - apply FindMethodFast_miss; assumption.
Qed.

(** On a cache hit with a usable receiver, [FindMethodFast] either gives up
    on the access tests (only when they were asked for) or performs the
    final step. *)
Lemma FindMethodFast_hit (method_idx : N) (this_object : option ObjectPtr)
    (referrer : MethodPtr) (access_check : bool) (type : InvokeType) (s : State)
    (cached : MethodPtr) :
  method_cache_slot (runtime s) referrer method_idx = Some cached ->
  is_direct type = true \/ is_Some this_object ->
  FindMethodFast sv method_idx this_object referrer access_check type s =
    if access_check && negb (method_access_ok sv (runtime s) referrer cached type)
    then Returns NULL s
    else dispatch_outcome sv type cached this_object referrer s.
Proof.
  unfold method_cache_slot, is_direct. intros Hslot Hrecv.
  unfold FindMethodFast, Method_GetDeclaringClass, GetResolvedMethod. run_M.
  assert (Hguard : bool_decide (this_object = NULL) &&
            negb (bool_decide (type = kStatic) || bool_decide (type = kDirect)) = false).
  { destruct Hrecv as [-> | [o ->]]; [apply andb_false_r | reflexivity]. }
  rewrite Hguard, Hslot.
  unfold method_access_ok, dispatch_outcome, dispatch_spec, Method_GetAccessFlags,
    Object_GetClass, GetSuperClass, GetMethodIndex, VTable_Get, DCHECK. run_M.
  clear Hslot Hguard.
  assert (Hstep :
    forall (k : InvokeType) (recv : option ObjectPtr),
      bool_decide (k = kStatic) || bool_decide (k = kDirect) = true \/ is_Some recv ->
      forall P : InvokeType -> option ObjectPtr -> Prop,
        (forall o, P kStatic o) -> (forall o, P kDirect o) ->
        (forall o, P kVirtual (Some o)) -> (forall o, P kSuper (Some o)) ->
        (forall o, P kInterface (Some o)) -> P k recv).
  { intros k recv Hk P Hs Hd Hv Hsu Hi.
    destruct k; try apply Hs; try apply Hd;
      destruct Hk as [Hk | [o ->]]; try discriminate Hk; auto. }
  destruct access_check; cbn [andb negb];
    [ destruct (CheckIncompatibleClassChange sv _ _ _); cbn [andb negb orb]; [reflexivity|];
      destruct (CanAccess sv _ _ _); cbn [andb negb orb]; [|reflexivity];
      destruct (CanAccessMember sv _ _ _ _); cbn [andb negb orb]; [|reflexivity] | ];
    pattern type, this_object; apply (Hstep type this_object Hrecv); clear;
    intros o; repeat (case_bool_decide; try congruence); cbn;
    try (destruct (kIsDebugBuild sv); cbn);
    try (destruct (super_class_ _) as [super|]; cbn; [|reflexivity]);
    try (destruct (vtable_ _ !! _); cbn); reflexivity.
Qed.

(** C3: once [FindMethodFast] reaches its final step (the receiver is
    usable, the cache holds a method, the access tests were not asked for or
    passed), the result depends on the dispatch kind alone: static and direct
    return the cached method; interface returns what the interface table of
    the receiver's class gives for it; super returns the entry of the
    vtable of the referring class's superclass at the cached method's slot;
    virtual returns the entry of the vtable of the receiver's class at that
    slot.  The state is the one on entry. *)
Theorem FindMethodFast_dispatch_by_kind
    (method_idx : N) (this_object : option ObjectPtr) (referrer : MethodPtr)
    (access_check : bool) (type : InvokeType) (s : State) (cached : MethodPtr) :
  method_cache_slot (runtime s) referrer method_idx = Some cached ->
  is_direct type = true \/ is_Some this_object ->
  access_check = false \/ method_access_ok sv (runtime s) referrer cached type = true ->
  let r := runtime s in
  let slot := N.to_nat (method_index_ (methods r cached)) in
  let result := FindMethodFast sv method_idx this_object referrer access_check type s in
  match type with
  | kStatic | kDirect => result = Returns (Some cached) s
  | kInterface =>
      forall o, this_object = Some o ->
        result = Returns (FindVirtualMethodForInterface sv r (klass_ (objects r o)) cached) s
  | kSuper =>
      forall super target,
        super_class_ (classes r (method_declaring_class_ (methods r referrer))) = Some super ->
        vtable_ (classes r super) !! slot = Some target ->
        result = Returns (Some target) s
  | kVirtual =>
      forall o target, this_object = Some o ->
        vtable_ (classes r (klass_ (objects r o))) !! slot = Some target ->
        result = Returns (Some target) s
  end.
Proof.
  intros Hslot Hrecv Hacc r slot result.
  assert (Hres : result = dispatch_outcome sv type cached this_object referrer s).
  { subst result. rewrite (FindMethodFast_hit _ _ _ _ _ _ _ Hslot Hrecv).
    destruct Hacc as [-> | ->]; [reflexivity | by rewrite andb_false_r]. }
  rewrite Hres. unfold dispatch_outcome, dispatch_spec. fold r. fold slot.
  destruct type.
  - reflexivity.
  - reflexivity.
  - intros o target -> Hentry. by rewrite Hentry.
  - intros super target Hsuper Hentry. by rewrite Hsuper, Hentry.
  - by intros o ->.
Qed.

(** C7: a cached field whose primitive-vs-object classification differs from
    the requested one, or whose storage size differs from [expected_size],
    makes [FindFieldFast] return NULL; hence a field that [FindFieldFast]
    does return has exactly the requested classification and size. *)
Theorem FindFieldFast_kind_and_size
    (field_idx : N) (referrer : MethodPtr) (type : FindFieldType)
    (expected_size : N) (s : State) :
  (forall f, field_cache_slot (runtime s) referrer field_idx = Some f ->
     field_is_primitive_type_ (fields (runtime s) f) <> requests_primitive type \/
     field_size_ (fields (runtime s) f) <> expected_size ->
     FindFieldFast sv field_idx referrer type expected_size s = Returns NULL s) /\
  (forall f s', FindFieldFast sv field_idx referrer type expected_size s = Returns (Some f) s' ->
     s' = s /\
     field_is_primitive_type_ (fields (runtime s) f) = requests_primitive type /\
     field_size_ (fields (runtime s) f) = expected_size).
Proof.
  split.
  - intros f Hslot Hbad. rewrite (FindFieldFast_hit _ _ _ _ _ _ Hslot).
    assert (Hgate : gate_primitive (runtime s) f type && gate_size (runtime s) f expected_size
                    = false).
    { unfold gate_primitive, gate_size. destruct Hbad as [Hp | Hsz].
      - apply andb_false_iff. left. apply eqb_false_iff. exact Hp.
      - apply andb_false_iff. right. apply N.eqb_neq. exact Hsz. }
    rewrite <- !andb_assoc. rewrite Hgate. by rewrite !andb_false_r.
  - intros f s' Hret.
    destruct (field_cache_slot (runtime s) referrer field_idx) as [f0|] eqn:Hslot.
    + rewrite (FindFieldFast_hit _ _ _ _ _ _ Hslot) in Hret.
      destruct (_ && _) eqn:Hgates in Hret; [|discriminate].
      injection Hret as -> ->.
      apply andb_true_iff in Hgates as [Hgates Hsz].
      apply andb_true_iff in Hgates as [_ Hp].
      split; [reflexivity|]. split.
      * apply eqb_prop. exact Hp.
      * apply N.eqb_eq. exact Hsz.
    + rewrite (FindFieldFast_miss _ _ _ _ _ Hslot) in Hret. discriminate.
Qed.

(** C10: with [access_check] off, [FindMethodFast] consults neither the
    incompatible-class-change test nor the two visibility tests: replacing
    them by any others leaves the outcome as it was, and on a cache hit the
    routine goes straight to the final step.  With [access_check] on, a
    failed test gives NULL.  [FindFieldFast] takes no such switch: whenever
    the cached field fails the class-access test, the member-access test or
    the final-field-write test, it returns NULL, whatever the other
    arguments. *)
Theorem access_checks_opt_out_only_for_methods :
  (forall icce can_access can_access_member method_idx this_object referrer type s,
     FindMethodFast (with_access_policy icce can_access can_access_member sv)
       method_idx this_object referrer false type s =
     FindMethodFast sv method_idx this_object referrer false type s) /\
  (forall method_idx this_object referrer type s cached,
     method_cache_slot (runtime s) referrer method_idx = Some cached ->
     is_direct type = true \/ is_Some this_object ->
     FindMethodFast sv method_idx this_object referrer false type s =
       dispatch_outcome sv type cached this_object referrer s /\
     (method_access_ok sv (runtime s) referrer cached type = false ->
      FindMethodFast sv method_idx this_object referrer true type s = Returns NULL s)) /\
  (forall field_idx referrer type expected_size s f,
     field_cache_slot (runtime s) referrer field_idx = Some f ->
     gate_class_access sv (runtime s) referrer f = false \/
     gate_member_access sv (runtime s) referrer f = false \/
     (requests_write type = true /\
      acc_final (field_access_flags_ (fields (runtime s) f)) = true /\
      field_class (runtime s) f <> referring_class (runtime s) referrer) ->
     FindFieldFast sv field_idx referrer type expected_size s = Returns NULL s).
Proof.
  split; [|split].
  - intros. reflexivity.
  - intros method_idx this_object referrer type s cached Hslot Hrecv. split.
    + by rewrite (FindMethodFast_hit _ _ _ _ _ _ _ Hslot Hrecv).
    + intros Hbad. rewrite (FindMethodFast_hit _ _ _ _ _ _ _ Hslot Hrecv).
      by rewrite Hbad.
  - intros field_idx referrer type expected_size s f Hslot Hbad.
    rewrite (FindFieldFast_hit _ _ _ _ _ _ Hslot).
    assert (Hgate : gate_class_access sv (runtime s) referrer f &&
                    gate_member_access sv (runtime s) referrer f &&
                    gate_final_write (runtime s) referrer f type = false).
    { destruct Hbad as [-> | [-> | (Hw & Hfin & Hne)]].
      - reflexivity.
      - by rewrite andb_false_r.
      - unfold gate_final_write. rewrite Hw, Hfin.
        rewrite bool_decide_eq_false_2 by exact Hne. by rewrite andb_false_r. }
    destruct (gate_initializing _ _); [|reflexivity].
    destruct (gate_static _ _ _); [|reflexivity]. cbn [andb].
    rewrite Hgate. reflexivity.
Qed.

End Properties.

(** ** Frame rules

    Rules to show that a routine keeps a relation between its initial and
    final state, by following the structure of its code. *)
Section Steps.
Context (R : State -> State -> Prop).
Hypothesis R_refl : forall s, R s s.
Hypothesis R_trans : forall s1 s2 s3, R s1 s2 -> R s2 s3 -> R s1 s3.

Lemma steps_ret {A} (a : A) : steps R (mret a).
Proof. intros s. exists s. split; [reflexivity | apply R_refl]. Qed.

Lemma steps_gets {A} (f : Runtime -> A) : steps R (gets f).
Proof. intros s. exists s. split; [reflexivity | apply R_refl]. Qed.

Lemma steps_fatal {A} (d : string) : steps R (fatal (A:=A) d).
Proof. intros s. exists s. split; [reflexivity | apply R_refl]. Qed.

Lemma steps_modify (f : Runtime -> Runtime) :
  (forall s, R s {| runtime := f (runtime s); trace := trace s |}) ->
  steps R (modify f).
Proof. intros Hf s. eexists. split; [reflexivity | apply Hf]. Qed.

Lemma steps_call {A} (ev : Event) (f : Runtime -> A * Runtime) :
  (forall s, R s {| runtime := (f (runtime s)).2; trace := trace s ++ [ev] |}) ->
  steps R (call ev f).
Proof.
  intros Hf s. unfold call. specialize (Hf s).
  destruct (f (runtime s)) as [a r]. eexists. split; [reflexivity | exact Hf].
Qed.

Lemma steps_bind {A B} (m : M A) (k : A -> M B) :
  steps R m -> (forall a, steps R (k a)) -> steps R (m ≫= k).
Proof.
  intros Hm Hk s. unfold mbind, M_bind.
  destruct (Hm s) as (s1 & Hfin & HR).
  destruct (m s) as [a s1' | d s1' | ]; cbn in Hfin; [| |discriminate].
  - injection Hfin as ->. destruct (Hk a s1) as (s2 & Hfin2 & HR2).
    exists s2. split; [exact Hfin2 | eapply R_trans; eassumption].
  - injection Hfin as ->. exists s1. split; [reflexivity | exact HR].
Qed.
End Steps.

(** Follow the code of a routine with the frame rules; what is left are the
    store updates and the service calls. *)
Ltac steps_structure Hrefl Htrans :=
  repeat first
    [ apply (steps_ret _ Hrefl)
    | apply (steps_gets _ Hrefl)
    | apply (steps_fatal _ Hrefl)
    | apply (steps_bind _ Htrans); [ | intros ? ]
    | match goal with
      | |- steps _ (if ?b then _ else _) => destruct b
      | |- steps _ (match ?x with Some _ => _ | None => _ end) => destruct x
      end ].

Lemma no_initialization_refl s : no_initialization s s.
Proof. exists []. split; [by rewrite app_nil_r | constructor]. Qed.

Lemma no_initialization_trans s1 s2 s3 :
  no_initialization s1 s2 -> no_initialization s2 s3 -> no_initialization s1 s3.
Proof.
  intros (e1 & H1 & F1) (e2 & H2 & F2). exists (e1 ++ e2). split.
  - by rewrite H2, H1, app_assoc.
  - apply Forall_app. by split.
Qed.

Lemma same_status_refl s : same_status s s.
Proof. by intros c. Qed.

Lemma same_status_trans s1 s2 s3 :
  same_status s1 s2 -> same_status s2 s3 -> same_status s1 s3.
Proof. intros H1 H2 c. by rewrite H2, H1. Qed.

Section AllocationProperties.
Context (sv : Services).

Ltac unfold_alloc :=
  unfold AllocArrayFromCode, AllocObjectFromCode, ThrowNewExceptionF_d,
    ThrowIllegalAccessErrorClass, ThrowNewException, GetDexCacheResolvedTypes_Get,
    Method_GetDeclaringClass, IsExceptionPending, DCHECK, CHECK, IsArrayClass,
    IsInstantiable, IsInitialized;
  cbv zeta.

(** [AllocArrayFromCode] only ever calls the resolver and the array
    allocator. *)
Lemma AllocArrayFromCode_no_initialization (type_idx : N) (method : MethodPtr)
    (component_count : Z) (access_check : bool) :
  steps no_initialization (AllocArrayFromCode sv type_idx method component_count access_check).
Proof.
  unfold_alloc.
  steps_structure no_initialization_refl no_initialization_trans.
  all: first
    [ apply steps_modify; intros ?; exists []; split;
      [by rewrite app_nil_r | constructor]
    | apply steps_call; intros ?; eexists [_]; split; [reflexivity | by repeat constructor] ].
Qed.

(** Its own updates of the store set the pending exception and nothing
    else. *)
Lemma AllocArrayFromCode_same_status (type_idx : N) (method : MethodPtr)
    (component_count : Z) (access_check : bool) :
  (forall idx m r c, status_ (classes (ResolveType sv idx m r).2 c) = status_ (classes r c)) ->
  (forall k n r c, status_ (classes (Array_Alloc sv k n r).2 c) = status_ (classes r c)) ->
  steps same_status (AllocArrayFromCode sv type_idx method component_count access_check).
Proof.
  intros Hresolve Halloc. unfold_alloc.
  steps_structure same_status_refl same_status_trans.
  all: first
    [ apply steps_modify; intros ? ?; reflexivity
    | apply steps_call; intros ? ?; cbn; first [apply Hresolve | apply Halloc] ].
Qed.

(** C9: [AllocArrayFromCode] never initializes a class.  Whatever its
    arguments, it ends (returning or aborting) in a state whose trace has
    grown by calls none of which is [EnsureInitialized]; and when the
    resolver and the array allocator leave the initialization state of every
    class alone, so does the whole call.  [AllocObjectFromCode] differs: once
    it holds a class that is not initialized (and the access test, if asked
    for, has passed), its next call is [EnsureInitialized] on that class, and
    the object is allocated only after that call succeeded. *)
Theorem AllocArrayFromCode_never_initializes
    (type_idx : N) (method : MethodPtr) (component_count : Z) (access_check : bool)
    (s : State) :
  (exists s',
     final_state (AllocArrayFromCode sv type_idx method component_count access_check s)
       = Some s' /\
     no_initialization s s') /\
  ((forall idx m r c, status_ (classes (ResolveType sv idx m r).2 c) = status_ (classes r c)) ->
   (forall k n r c, status_ (classes (Array_Alloc sv k n r).2 c) = status_ (classes r c)) ->
   exists s',
     final_state (AllocArrayFromCode sv type_idx method component_count access_check s)
       = Some s' /\
     same_status s s') /\
  (forall klass s1,
     resolve_for_alloc sv type_idx method s = (Some klass, s1) ->
     status_is_initialized (status_ (classes (runtime s1) klass)) = false ->
     access_check = false \/
     (instantiable_ (classes (runtime s1) klass) = true /\
      CanAccess sv (runtime s1) (method_declaring_class_ (methods (runtime s1) method)) klass
        = true) ->
     exists s',
       final_state (AllocObjectFromCode sv type_idx method access_check s) = Some s' /\
       trace s' =
         trace s1 ++ EvEnsureInitialized klass ::
           (if (EnsureInitialized sv klass true true (runtime s1)).1
            then [EvAllocObject klass] else [])).
Proof.
  split; [|split].
  - apply AllocArrayFromCode_no_initialization.
  - intros Hresolve Halloc. by apply AllocArrayFromCode_same_status.
  - intros klass s1 Hres Hinit Hacc.
    unfold resolve_for_alloc, type_cache_slot in Hres.
    unfold_alloc. run_M.
    destruct (dex_cache_resolved_types_ _ !! type_idx) as [k|];
      [ injection Hres as -> ->
      | destruct (ResolveType sv type_idx method (runtime s)) as [resolved r1];
        injection Hres as -> <-; cbn [runtime trace] in * ].
    all: destruct access_check; cbn [runtime trace];
      [ destruct Hacc as [? | [Hinst Hcan]]; [discriminate|];
        rewrite Hinst; cbn [negb runtime trace]; rewrite Hcan; cbn [negb runtime trace] | ].
    all: rewrite Hinit; cbn [negb runtime trace].
    all: match goal with
         | |- context [EnsureInitialized sv ?k true true ?r] =>
             destruct (EnsureInitialized sv k true true r) as [ok r2]
         end; destruct ok; cbn [negb runtime trace fst].
    all: try (destruct (AllocObject sv _ r2) as [obj r3]);
      try (destruct (kIsDebugBuild sv && negb _));
      cbn; eexists; (split; [reflexivity|]); by rewrite <- ?app_assoc.
Qed.

(** C5: with [access_check] on, allocating an object of a resolved class
    that is not instantiable returns NULL with InstantiationError pending
    (its message is the pretty descriptor of the class); the error is not
    IllegalAccessError, whatever the access test would say.  From the point
    where the class is known, the store changes in the pending exception
    only and no service is called: no class is initialized. *)
Theorem AllocObjectFromCode_not_instantiable
    (type_idx : N) (method : MethodPtr) (s s1 : State) (klass : ClassPtr) :
  resolve_for_alloc sv type_idx method s = (Some klass, s1) ->
  instantiable_ (classes (runtime s1) klass) = false ->
  let thrown := {| descriptor_ := "Ljava/lang/InstantiationError;";
                   detail_message_ := PrettyDescriptor sv (runtime s1) klass |} in
  let s' := {| runtime := set_exception (Some thrown) (runtime s1); trace := trace s1 |} in
  AllocObjectFromCode sv type_idx method true s = Returns NULL s' /\
  exception_ (self (runtime s')) = Some thrown /\
  descriptor_ thrown <> "Ljava/lang/IllegalAccessError;" /\
  (forall c, classes (runtime s') c = classes (runtime s1) c) /\
  (is_Some (type_cache_slot (runtime s) method type_idx) -> s1 = s) /\
  Forall (fun ev => is_EnsureInitialized ev = false) (drop (length (trace s)) (trace s')).
Proof.
  intros Hres Hinst thrown s'. unfold resolve_for_alloc, type_cache_slot in *.
  assert (Hrun : AllocObjectFromCode sv type_idx method true s = Returns NULL s').
  { unfold_alloc. run_M.
    destruct (dex_cache_resolved_types_ _ !! type_idx) as [k|] eqn:Hslot.
    - injection Hres as -> ->. by rewrite Hinst.
    - destruct (ResolveType sv type_idx method (runtime s)) as [resolved r1].
      injection Hres as -> <-. cbn in Hinst. cbn [runtime]. by rewrite Hinst. }
  split; [exact Hrun|]. split; [reflexivity|]. split; [discriminate|].
  split; [reflexivity|]. split.
  - intros [k Hk]. rewrite Hk in Hres. by injection Hres as _ <-.
  - subst s'. cbn [trace].
    destruct (dex_cache_resolved_types_ _ !! type_idx) as [k|].
    + injection Hres as _ <-. rewrite drop_all. constructor.
    + destruct (ResolveType sv type_idx method (runtime s)) as [resolved r1].
      injection Hres as _ <-. cbn [trace]. rewrite drop_app_length.
      by repeat constructor.
Qed.

(** C8, as the code has it: the array-class assertion guards slow-path
    resolution only.  When the cache misses and the resolver returns a class
    that is not an array class, the process aborts with the class's pretty
    name (a failed CHECK, in the store the resolver left: no managed error
    is raised); a resolved array class goes on to the access test and the
    allocation.  A class found in the cache goes there directly, without
    the assertion. *)
Theorem AllocArrayFromCode_array_class_assertion
    (type_idx : N) (method : MethodPtr) (component_count : Z) (access_check : bool)
    (s : State) :
  0 <= component_count ->
  (forall klass r1,
     type_cache_slot (runtime s) method type_idx = NULL ->
     ResolveType sv type_idx method (runtime s) = (Some klass, r1) ->
     let s1 := {| runtime := r1; trace := trace s ++ [EvResolveType type_idx method] |} in
     AllocArrayFromCode sv type_idx method component_count access_check s =
       if array_class_ (classes r1 klass)
       then array_alloc_outcome sv method klass component_count access_check s1
       else Fatal (PrettyClass sv r1 klass) s1) /\
  (forall klass,
     type_cache_slot (runtime s) method type_idx = Some klass ->
     AllocArrayFromCode sv type_idx method component_count access_check s =
       array_alloc_outcome sv method klass component_count access_check s).
Proof.
  intros Hcount.
  assert (Hlt : (component_count <? 0) = false) by (apply Z.ltb_ge; lia).
  split.
  - intros klass r1 Hslot Hres s1. unfold type_cache_slot in Hslot.
    unfold_alloc. run_M. rewrite Hlt, Hslot, Hres.
    cbn [runtime trace]. fold s1. unfold array_alloc_outcome.
    destruct (array_class_ (classes r1 klass)); cbn [negb]; [|reflexivity].
    destruct access_check; cbn [andb]; [|reflexivity].
    destruct (CanAccess sv _ _ _); reflexivity.
  - intros klass Hslot. unfold type_cache_slot in Hslot.
    unfold_alloc. run_M. rewrite Hlt, Hslot.
    unfold array_alloc_outcome.
    destruct access_check; cbn [andb]; [|reflexivity].
    destruct (CanAccess sv _ _ _); reflexivity.
Qed.

End AllocationProperties.

Section BoundaryProperties.
Context (sv : Services).

(** C1, as the code has it: when monitor exit leaves an exception pending,
    [UnlockJniSynchronizedMethod] does not return to its caller, whether or
    not an exception was pending on entry; with an exception saved on entry
    the process aborts with a diagnostic made of both dumps. *)
Theorem UnlockJniSynchronizedMethod_monitor_exit_raises
    (locked : jobject) (s : State) (obj : ObjectPtr) (r1 : Runtime) (second : Throwable) :
  let r0 := runtime_at_monitor_exit (runtime s) in
  DecodeJObject sv r0 locked = Some obj ->
  MonitorExit sv obj r0 = (tt, r1) ->
  exception_ (self r1) = Some second ->
  (forall a s', UnlockJniSynchronizedMethod sv locked s <> Returns a s') /\
  (forall saved, exception_ (self (runtime s)) = Some saved ->
     UnlockJniSynchronizedMethod sv locked s =
       Fatal (double_fault_diagnostic sv saved second)
             {| runtime := r1; trace := trace s ++ [EvMonitorExit obj] |}).
Proof.
  intros r0 Hdecode Hexit Hsecond. subst r0. unfold runtime_at_monitor_exit in *.
  unfold UnlockJniSynchronizedMethod, IsExceptionPending, GetException, ClearException,
    SetException. run_M.
  destruct (exception_ (self (runtime s))) as [saved|] eqn:Hentry; cbn.
  - rewrite Hdecode. cbn. rewrite Hexit. cbn. rewrite Hsecond. cbn.
    rewrite !Hentry. cbn. rewrite Hsecond. cbn.
    split; [by intros ? ?|]. by intros ? [= <-].
  - rewrite Hdecode. cbn. rewrite Hexit. cbn. rewrite Hsecond. cbn.
    split; [by intros ? ?|]. by intros ?.
Qed.

(** One turn of the loop, case by case. *)
Lemma CheckSuspend_iteration_idle (s : State) :
  checkpoint_request_ (self (runtime s)) = false ->
  suspend_request_ (self (runtime s)) = false ->
  CheckSuspend_iteration sv s = Returns false s.
Proof.
  intros Hc Hs. unfold CheckSuspend_iteration, ReadFlag. run_M. cbn [read_flag].
  by rewrite Hc, Hs.
Qed.

Lemma CheckSuspend_iteration_checkpoint (s : State) :
  checkpoint_request_ (self (runtime s)) = true ->
  CheckSuspend_iteration sv s =
    Returns true {| runtime := clear_flag kCheckpointRequest
                                 (RunCheckpointFunction sv (runtime s)).2;
                    trace := trace s ++ [EvRunCheckpointFunction] |}.
Proof.
  intros Hc. unfold CheckSuspend_iteration, ReadFlag, AtomicClearFlag. run_M.
  cbn [read_flag]. rewrite Hc.
  by destruct (RunCheckpointFunction sv (runtime s)) as [[] r].
Qed.

Lemma CheckSuspend_iteration_suspend (s : State) :
  checkpoint_request_ (self (runtime s)) = false ->
  suspend_request_ (self (runtime s)) = true ->
  CheckSuspend_iteration sv s =
    Returns true {| runtime := (FullSuspendCheck sv (runtime s)).2;
                    trace := trace s ++ [EvFullSuspendCheck] |}.
Proof.
  intros Hc Hs. unfold CheckSuspend_iteration, ReadFlag. run_M.
  cbn [read_flag]. rewrite Hc, Hs.
  by destruct (FullSuspendCheck sv (runtime s)) as [[] r].
Qed.

(** The loop goes round when a turn says so. *)
Lemma CheckSuspend_again (fuel : nat) (s s' : State) :
  CheckSuspend_iteration sv s = Returns true s' ->
  CheckSuspend sv (S fuel) s = CheckSuspend sv fuel s'.
Proof. intros Hturn. cbn [CheckSuspend]. by rewrite Hturn. Qed.

(** More turns than needed change nothing. *)
Lemma CheckSuspend_fuel_mono (n : nat) :
  forall (s : State) (o : Outcome unit),
    CheckSuspend sv n s = Some o ->
    forall m, (n <= m)%nat -> CheckSuspend sv m s = Some o.
Proof.
  induction n as [|n IH]; intros s o Hrun m Hle; [discriminate|].
  destruct m as [|m]; [lia|].
  cbn [CheckSuspend] in *.
  destruct (CheckSuspend_iteration sv s) as [[|] s' | d s' | ]; try exact Hrun.
  apply (IH s' o Hrun). lia.
Qed.

(** C6: with neither request flag set, [CheckSuspend] breaks out of its loop
    on the first turn and leaves the state, trace included, as it was: no
    checkpoint function ran and no suspend check blocked.  With the
    checkpoint flag set, a turn of the loop runs the checkpoint function and
    then clears the flag, whatever the suspend flag says.  If no suspend
    request is standing after that, the loop ends on its second turn, the
    checkpoint function has run exactly once, and a further call finds the
    flag cleared and returns at once.  If a suspend request is standing, the
    next turn is the full suspend check, after the checkpoint; when that
    returns with both flags down the loop ends, again with exactly one run of
    the checkpoint function. *)
Theorem CheckSuspend_protocol (s : State) (fuel : nat) :
  (checkpoint_request_ (self (runtime s)) = false ->
   suspend_request_ (self (runtime s)) = false ->
   CheckSuspend sv (S fuel) s = Some (Returns tt s)) /\
  (checkpoint_request_ (self (runtime s)) = true ->
   let s1 := {| runtime := clear_flag kCheckpointRequest
                             (RunCheckpointFunction sv (runtime s)).2;
                trace := trace s ++ [EvRunCheckpointFunction] |} in
   let s2 := {| runtime := (FullSuspendCheck sv (runtime s1)).2;
                trace := trace s1 ++ [EvFullSuspendCheck] |} in
   CheckSuspend_iteration sv s = Returns true s1 /\
   checkpoint_request_ (self (runtime s1)) = false /\
   (suspend_request_ (self (runtime s1)) = false ->
    CheckSuspend sv (S (S fuel)) s = Some (Returns tt s1) /\
    checkpoint_runs (trace s1) = S (checkpoint_runs (trace s)) /\
    CheckSuspend sv (S fuel) s1 = Some (Returns tt s1)) /\
   (suspend_request_ (self (runtime s1)) = true ->
    checkpoint_request_ (self (runtime s2)) = false ->
    suspend_request_ (self (runtime s2)) = false ->
    CheckSuspend sv (S (S (S fuel))) s = Some (Returns tt s2) /\
    checkpoint_runs (trace s2) = S (checkpoint_runs (trace s)))).
Proof.
  assert (Hidle : forall s0 n,
    checkpoint_request_ (self (runtime s0)) = false ->
    suspend_request_ (self (runtime s0)) = false ->
    CheckSuspend sv (S n) s0 = Some (Returns tt s0)).
  { intros s0 n Hc Hs. cbn [CheckSuspend].
    by rewrite (CheckSuspend_iteration_idle s0 Hc Hs). }
  assert (Hcount : forall t,
    checkpoint_runs (t ++ [EvRunCheckpointFunction]) = S (checkpoint_runs t)).
  { intros t. unfold checkpoint_runs.
    rewrite filter_app, length_app, filter_cons_True by reflexivity.
    rewrite filter_nil. cbn [length]. lia. }
  split; [apply Hidle|].
  intros Hc s1 s2.
  pose proof (CheckSuspend_iteration_checkpoint s Hc) as Hturn. fold s1 in Hturn.
  split; [exact Hturn|]. split; [reflexivity|]. split.
  - intros Hs. split; [|split].
    + rewrite (CheckSuspend_again _ _ _ Hturn). by apply Hidle.
    + apply Hcount.
    + by apply Hidle.
  - intros Hs Hc2 Hs2.
    assert (Hturn2 : CheckSuspend_iteration sv s1 = Returns true s2)
      by (by apply CheckSuspend_iteration_suspend).
    split.
    + rewrite (CheckSuspend_again _ _ _ Hturn), (CheckSuspend_again _ _ _ Hturn2).
      by apply Hidle.
    + subst s2. cbn [trace]. unfold checkpoint_runs at 1.
      rewrite filter_app, length_app, filter_cons_False, filter_nil by discriminate.
      cbn [length]. fold (checkpoint_runs (trace s1)). subst s1. cbn [trace].
      rewrite Hcount. lia.
Qed.

End BoundaryProperties.

(** * The properties on the sample world *)

Import Sample.

(** A count of -1 is refused with the message "-1" before anything is
    resolved. *)
Lemma AllocArrayFromCode_negative_count_witness :
  -1 < 0 /\
  AllocArrayFromCode services 5 0 (-1) true s0 =
    Returns NULL
      {| runtime :=
           set_exception
             (Some {| descriptor_ := "Ljava/lang/NegativeArraySizeException;";
                      detail_message_ := "-1" |})
             (heap idle_thread);
         trace := [] |}.
Proof.
  split; [reflexivity|].
  exact (proj1 (AllocArrayFromCode_negative_count services 5%N 0%nat (-1) true s0 eq_refl)).
Defined.

(** Index 7 is in neither cache of class 0. *)
Lemma fast_path_cache_miss_is_silent_witness :
  field_cache_slot (runtime s0) 0%nat 7%N = NULL /\
  method_cache_slot (runtime s0) 0%nat 7%N = NULL /\
  FindFieldFast services 7 0 StaticObjectRead 4 s0 = Returns NULL s0 /\
  FindMethodFast services 7 (Some 0%nat) 0 true kVirtual s0 = Returns NULL s0.
Proof.
  split; [reflexivity|]. split; [reflexivity|].
  exact (fast_path_cache_miss_is_silent services 7%N 7%N 0%nat StaticObjectRead 4%N
           (Some 0%nat) true kVirtual s0 eq_refl eq_refl).
Defined.

(** A virtual call of cached method 0 on object 1 (of class 1) lands on
    method 1, the entry of class 1's vtable at slot 0. *)
Lemma FindMethodFast_dispatch_by_kind_witness :
  method_cache_slot (runtime s0) 0%nat 0%N = Some 0%nat /\
  is_Some (Some 1%nat) /\
  method_access_ok services (runtime s0) 0%nat 0%nat kVirtual = true /\
  FindMethodFast services 0 (Some 1%nat) 0 true kVirtual s0 = Returns (Some 1%nat) s0.
Proof.
  split; [reflexivity|]. split; [by exists 1%nat|]. split; [reflexivity|].
  exact (FindMethodFast_dispatch_by_kind services 0%N (Some 1%nat) 0%nat true kVirtual s0
           0%nat eq_refl (or_intror (ex_intro _ 1%nat eq_refl)) (or_intror eq_refl)
           1%nat 1%nat eq_refl eq_refl).
Defined.

(** Type index 1 of method 0 is cached as class 1, which is abstract. *)
Lemma AllocObjectFromCode_not_instantiable_witness :
  resolve_for_alloc services 1%N 0%nat s0 = (Some 1%nat, s0) /\
  instantiable_ (classes (runtime s0) 1%nat) = false /\
  AllocObjectFromCode services 1 0 true s0 =
    Returns NULL
      {| runtime :=
           set_exception
             (Some {| descriptor_ := "Ljava/lang/InstantiationError;";
                      detail_message_ := "klass" |})
             (heap idle_thread);
         trace := [] |}.
Proof.
  split; [reflexivity|]. split; [reflexivity|].
  exact (proj1 (AllocObjectFromCode_not_instantiable services 1%N 0%nat s0 s0 1%nat
                  eq_refl eq_refl)).
Defined.

(** Field 0 is an 8-byte primitive: asked for with size 4 it is withheld,
    and when it is returned (size 8) it has the requested kind and size. *)
Lemma FindFieldFast_kind_and_size_witness :
  (field_cache_slot (runtime s0) 0%nat 0%N = Some 0%nat /\
   field_size_ (fields (runtime s0) 0%nat) <> 4%N /\
   FindFieldFast services 0 0 InstancePrimitiveRead 4 s0 = Returns NULL s0) /\
  (FindFieldFast services 0 0 InstancePrimitiveRead 8 s0 = Returns (Some 0%nat) s0 /\
   field_is_primitive_type_ (fields (runtime s0) 0%nat) = true /\
   field_size_ (fields (runtime s0) 0%nat) = 8%N).
Proof.
  assert (Hne : field_size_ (fields (runtime s0) 0%nat) <> 4%N) by discriminate.
  split.
  - split; [reflexivity|]. split; [exact Hne|].
    exact (proj1 (FindFieldFast_kind_and_size services 0%N 0%nat InstancePrimitiveRead 4%N s0)
             0%nat eq_refl (or_intror Hne)).
  - split; [reflexivity|].
    exact (proj2 (proj2 (FindFieldFast_kind_and_size services 0%N 0%nat InstancePrimitiveRead
                           8%N s0) 0%nat s0 eq_refl)).
Defined.

(** With every access test failing, a static call still reaches the cached
    method when [access_check] is off and is refused when it is on; the
    field lookup is refused. *)
Lemma access_checks_opt_out_only_for_methods_witness :
  method_cache_slot (runtime s0) 0%nat 0%N = Some 0%nat /\
  is_direct kStatic = true /\
  method_access_ok strict_services (runtime s0) 0%nat 0%nat kStatic = false /\
  FindMethodFast strict_services 0 NULL 0 false kStatic s0 = Returns (Some 0%nat) s0 /\
  FindMethodFast strict_services 0 NULL 0 true kStatic s0 = Returns NULL s0 /\
  field_cache_slot (runtime s0) 0%nat 0%N = Some 0%nat /\
  gate_class_access strict_services (runtime s0) 0%nat 0%nat = false /\
  FindFieldFast strict_services 0 0 InstancePrimitiveRead 8 s0 = Returns NULL s0.
Proof.
  pose proof (proj1 (proj2 (access_checks_opt_out_only_for_methods strict_services))
                0%N NULL 0%nat kStatic s0 0%nat eq_refl (or_introl eq_refl)) as Hm.
  pose proof (proj2 (proj2 (access_checks_opt_out_only_for_methods strict_services))
                0%N 0%nat InstancePrimitiveRead 8%N s0 0%nat eq_refl (or_introl eq_refl))
    as Hf.
  split; [reflexivity|]. split; [reflexivity|]. split; [reflexivity|].
  split; [exact (proj1 Hm)|]. split; [exact (proj2 Hm eq_refl)|].
  split; [reflexivity|]. split; [reflexivity|]. exact Hf.
Defined.

(** C1 fails on this input: unlocking object 1 raises
    IllegalMonitorStateException, and with no exception pending on entry the
    routine does not come back with that exception pending, it does not come
    back at all. *)
Lemma UnlockJniSynchronizedMethod_single_fault_counterexample :
  exception_ (self (runtime s0)) = NULL /\
  exception_ (self (MonitorExit services 1%nat (runtime s0)).2) = Some illegal_monitor_state /\
  UnlockJniSynchronizedMethod services 1 s0 = Undefined /\
  ~ (exists s', UnlockJniSynchronizedMethod services 1 s0 = Returns tt s' /\
                exception_ (self (runtime s')) = Some illegal_monitor_state).
Proof.
  split; [reflexivity|]. split; [reflexivity|]. split; [reflexivity|].
  intros (s' & Hret & _). discriminate Hret.
Defined.

(** The same unlock with an exception already pending aborts with both
    dumps. *)
Lemma UnlockJniSynchronizedMethod_monitor_exit_raises_witness :
  DecodeJObject services (runtime_at_monitor_exit (heap throwing_thread)) 1%nat =
    Some 1%nat /\
  MonitorExit services 1%nat (runtime_at_monitor_exit (heap throwing_thread)) =
    (tt, set_exception (Some illegal_monitor_state) (heap idle_thread)) /\
  (forall a s', UnlockJniSynchronizedMethod services 1 (state throwing_thread)
                <> Returns a s') /\
  UnlockJniSynchronizedMethod services 1 (state throwing_thread) =
    Fatal ("Synchronized JNI code returning with an exception:" +:+ newline +:+
           "Ljava/lang/RuntimeException;: from native code" +:+ newline +:+
           "Encountered second exception during implicit MonitorExit:" +:+ newline +:+
           "Ljava/lang/IllegalMonitorStateException;: unlock of unowned monitor")
          {| runtime := set_exception (Some illegal_monitor_state) (heap idle_thread);
             trace := [EvMonitorExit 1%nat] |}.
Proof.
  pose proof (UnlockJniSynchronizedMethod_monitor_exit_raises services 1%nat
                (state throwing_thread) 1%nat
                (set_exception (Some illegal_monitor_state) (heap idle_thread))
                illegal_monitor_state eq_refl eq_refl eq_refl) as [Hnoret Hfatal].
  split; [reflexivity|]. split; [reflexivity|]. split; [exact Hnoret|].
  exact (Hfatal _ eq_refl).
Defined.

(** A thread with the checkpoint flag set runs the checkpoint function once
    and comes back with the flag cleared; with the suspend flag set as well
    it goes on to the full suspend check; an idle thread comes back at
    once. *)
Lemma CheckSuspend_protocol_witness :
  checkpoint_request_ (self (heap checkpoint_thread)) = true /\
  suspend_request_ (self (runtime after_checkpoint)) = false /\
  CheckSuspend services 2 (state checkpoint_thread) = Some (Returns tt after_checkpoint) /\
  checkpoint_runs (trace after_checkpoint) = 1%nat /\
  CheckSuspend services 1 after_checkpoint = Some (Returns tt after_checkpoint) /\
  CheckSuspend services 1 s0 = Some (Returns tt s0) /\
  CheckSuspend services 3 (state busy_thread) =
    Some (Returns tt {| runtime := heap idle_thread;
                        trace := [EvRunCheckpointFunction; EvFullSuspendCheck] |}).
Proof.
  pose proof (proj2 (CheckSuspend_protocol services (state checkpoint_thread) 0) eq_refl)
    as (_ & _ & Hrun & _).
  pose proof (Hrun eq_refl) as (Hloop & Hcount & Hagain).
  pose proof (proj1 (CheckSuspend_protocol services s0 0) eq_refl eq_refl) as Hidle.
  pose proof (proj2 (CheckSuspend_protocol services (state busy_thread) 0) eq_refl)
    as (_ & _ & _ & Hboth).
  pose proof (Hboth eq_refl eq_refl eq_refl) as (Hloop2 & _).
  split; [reflexivity|]. split; [reflexivity|]. split; [exact Hloop|].
  split; [exact Hcount|]. split; [exact Hagain|]. split; [exact Hidle | exact Hloop2].
Defined.

(** C8 fails on this input: type index 0 of method 0 is cached as class 0,
    which is not an array class; an array of it is allocated all the same,
    with no abort: the assertion is not made on a cache hit. *)
Lemma AllocArrayFromCode_cached_class_counterexample :
  type_cache_slot (runtime s0) 0%nat 0%N = Some 0%nat /\
  array_class_ (classes (runtime s0) 0%nat) = false /\
  AllocArrayFromCode services 0 0 3 false s0 =
    Returns (Some 8%nat) {| runtime := runtime s0; trace := [EvArrayAlloc 0%nat 3] |} /\
  ~ (exists d s', AllocArrayFromCode services 0 0 3 false s0 = Fatal d s').
Proof.
  split; [reflexivity|]. split; [reflexivity|]. split; [reflexivity|].
  intros (d & s' & Hfatal). discriminate Hfatal.
Defined.

(** Type index 3 is not cached and resolves to class 0: the process
    aborts.  Type index 2 resolves to the array class 2: the array is
    allocated. *)
Lemma AllocArrayFromCode_array_class_assertion_witness :
  0 <= 3 /\
  type_cache_slot (runtime s0) 0%nat 3%N = NULL /\
  ResolveType services 3%N 0%nat (runtime s0) = (Some 0%nat, runtime s0) /\
  AllocArrayFromCode services 3 0 3 false s0 =
    Fatal "java.lang.Class<klass>"
          {| runtime := runtime s0; trace := [EvResolveType 3%N 0%nat] |} /\
  AllocArrayFromCode services 2 0 3 false s0 =
    Returns (Some 8%nat)
            {| runtime := runtime s0;
               trace := [EvResolveType 2%N 0%nat; EvArrayAlloc 2%nat 3] |} /\
  AllocArrayFromCode services 0 0 3 false s0 =
    Returns (Some 8%nat) {| runtime := runtime s0; trace := [EvArrayAlloc 0%nat 3] |}.
Proof.
  assert (Hcount : 0 <= 3) by discriminate.
  split; [exact Hcount|]. split; [reflexivity|]. split; [reflexivity|]. split; [|split].
  - exact (proj1 (AllocArrayFromCode_array_class_assertion services 3%N 0%nat 3 false s0
                    Hcount) 0%nat (runtime s0) eq_refl eq_refl).
  - exact (proj1 (AllocArrayFromCode_array_class_assertion services 2%N 0%nat 3 false s0
                    Hcount) 2%nat (runtime s0) eq_refl eq_refl).
  - exact (proj2 (AllocArrayFromCode_array_class_assertion services 0%N 0%nat 3 false s0
                    Hcount) 0%nat eq_refl).
Defined.

(** The sample resolver and allocator leave class states alone, so an array
    allocation does too; allocating an object of the uninitialized class 1
    starts with [EnsureInitialized] on it. *)
Lemma AllocArrayFromCode_never_initializes_witness :
  (forall idx m r c,
     status_ (classes (ResolveType services idx m r).2 c) = status_ (classes r c)) /\
  (forall k n r c,
     status_ (classes (Array_Alloc services k n r).2 c) = status_ (classes r c)) /\
  (exists s', final_state (AllocArrayFromCode services 2 0 3 true s0) = Some s' /\
              same_status s0 s') /\
  resolve_for_alloc services 1%N 0%nat s0 = (Some 1%nat, s0) /\
  status_is_initialized (status_ (classes (runtime s0) 1%nat)) = false /\
  (exists s', final_state (AllocObjectFromCode services 1 0 false s0) = Some s' /\
              trace s' = [EvEnsureInitialized 1%nat; EvAllocObject 1%nat]).
Proof.
  assert (Hresolve : forall idx m r c,
    status_ (classes (ResolveType services idx m r).2 c) = status_ (classes r c)).
  { intros idx m r c. cbn.
    repeat match goal with
           | |- context [match ?x with _ => _ end] => destruct x
           end; reflexivity. }
  assert (Halloc : forall k n r c,
    status_ (classes (Array_Alloc services k n r).2 c) = status_ (classes r c))
    by reflexivity.
  split; [exact Hresolve|]. split; [exact Halloc|]. split; [|split; [|split]].
  - exact (proj1 (proj2 (AllocArrayFromCode_never_initializes services 2%N 0%nat 3 true s0))
             Hresolve Halloc).
  - reflexivity.
  - reflexivity.
  - exact (proj2 (proj2 (AllocArrayFromCode_never_initializes services 1%N 0%nat 3 false s0))
             1%nat s0 eq_refl eq_refl (or_introl eq_refl)).
Defined.

(** * Further properties of the fast paths *)

Section FastPathProperties.
Context (sv : Services).

(** X1: [FindFieldFast] can neither throw nor initialize: whatever its
    arguments it returns, and the state it returns is the one it was given
    (no exception set, no service called, no store update). *)
Theorem FindFieldFast_leaves_state
    (field_idx : N) (referrer : MethodPtr) (type : FindFieldType)
    (expected_size : N) (s : State) :
  exists result, FindFieldFast sv field_idx referrer type expected_size s = Returns result s.
Proof.
  destruct (field_cache_slot (runtime s) referrer field_idx) as [f|] eqn:Hslot.
  - rewrite (FindFieldFast_hit sv _ _ _ _ _ _ Hslot). by eexists.
  - rewrite (FindFieldFast_miss sv _ _ _ _ _ Hslot). by eexists.
Qed.

(** X2: [FindFieldFast] returns a field exactly when that field is the one
    cached at the index, its declaring class is initializing or initialized,
    its static-ness is the requested one, the referring class may access the
    declaring class and the member, a write to a final field comes from the
    declaring class itself, and kind and size are the requested ones. *)
Theorem FindFieldFast_returns_iff
    (field_idx : N) (referrer : MethodPtr) (type : FindFieldType)
    (expected_size : N) (s : State) (f : FieldPtr) :
  let r := runtime s in
  let declaring := field_declaring_class_ (fields r f) in
  let referring := method_declaring_class_ (methods r referrer) in
  let flags := field_access_flags_ (fields r f) in
  FindFieldFast sv field_idx referrer type expected_size s = Returns (Some f) s <->
  field_cache_slot r referrer field_idx = Some f /\
  status_is_initializing (status_ (classes r declaring)) = true /\
  acc_static flags = requests_static type /\
  CanAccess sv r referring declaring = true /\
  CanAccessMember sv r referring declaring flags = true /\
  (requests_write type = true -> acc_final flags = true -> declaring = referring) /\
  field_is_primitive_type_ (fields r f) = requests_primitive type /\
  field_size_ (fields r f) = expected_size.
Proof.
  intros r declaring referring flags.
  assert (Hgates :
    gate_initializing r f && gate_static r f type && gate_class_access sv r referrer f &&
    gate_member_access sv r referrer f && gate_final_write r referrer f type &&
    gate_primitive r f type && gate_size r f expected_size = true <->
    status_is_initializing (status_ (classes r declaring)) = true /\
    acc_static flags = requests_static type /\
    CanAccess sv r referring declaring = true /\
    CanAccessMember sv r referring declaring flags = true /\
    (requests_write type = true -> acc_final flags = true -> declaring = referring) /\
    field_is_primitive_type_ (fields r f) = requests_primitive type /\
    field_size_ (fields r f) = expected_size).
  { unfold gate_initializing, gate_static, gate_class_access, gate_member_access,
      gate_final_write, gate_primitive, gate_size, field_class, referring_class.
    fold declaring referring flags.
    rewrite !andb_true_iff, !eqb_true_iff, N.eqb_eq, negb_true_iff.
    assert (Hfinal :
      requests_write type && acc_final flags && negb (bool_decide (declaring = referring))
        = false <->
      (requests_write type = true -> acc_final flags = true -> declaring = referring)).
    { destruct (requests_write type), (acc_final flags); cbn [andb]; try by intuition.
      rewrite negb_false_iff, bool_decide_eq_true. by intuition. }
    rewrite Hfinal. by intuition. }
  split.
  - intros Hret.
    destruct (field_cache_slot r referrer field_idx) as [f0|] eqn:Hslot.
    + rewrite (FindFieldFast_hit sv _ _ _ _ _ _ Hslot) in Hret.
      destruct (_ && _) eqn:Hg in Hret; [|discriminate].
      injection Hret as ->. split; [reflexivity|]. by apply Hgates.
    + by rewrite (FindFieldFast_miss sv _ _ _ _ _ Hslot) in Hret.
  - intros [Hslot Hrest]. rewrite (FindFieldFast_hit sv _ _ _ _ _ _ Hslot).
    apply Hgates in Hrest. fold r. by rewrite Hrest.
Qed.

(** X3: a field that may be written may be read: when a write request
    returns a field, the read request with the same static/instance and
    primitive/object sides returns the same field. *)
Theorem FindFieldFast_write_implies_read
    (field_idx : N) (referrer : MethodPtr) (type : FindFieldType)
    (expected_size : N) (s s' : State) (f : FieldPtr) :
  FindFieldFast sv field_idx referrer type expected_size s = Returns (Some f) s' ->
  FindFieldFast sv field_idx referrer (read_variant type) expected_size s =
    Returns (Some f) s'.
Proof.
  intros Hret.
  destruct (field_cache_slot (runtime s) referrer field_idx) as [f0|] eqn:Hslot.
  - rewrite (FindFieldFast_hit sv _ _ type _ _ _ Hslot) in Hret.
    rewrite (FindFieldFast_hit sv _ _ (read_variant type) _ _ _ Hslot).
    destruct (_ && _) eqn:Hg in Hret; [|discriminate].
    injection Hret as -> <-.
    repeat (apply andb_true_iff in Hg as [Hg ?]).
    assert (Hread : requests_write (read_variant type) = false) by by destruct type.
    assert (Hstatic : requests_static (read_variant type) = requests_static type)
      by by destruct type.
    assert (Hprim : requests_primitive (read_variant type) = requests_primitive type)
      by by destruct type.
    unfold gate_static, gate_final_write, gate_primitive in *.
    rewrite Hread, Hstatic, Hprim. cbn [andb negb].
    repeat (apply andb_true_iff in Hg as [Hg ?]).
    by repeat match goal with H : _ = true |- _ => rewrite H; clear H end.
  - by rewrite (FindFieldFast_miss sv _ _ _ _ _ Hslot) in Hret.
Qed.


(** X5: how [FindMethodFast] treats the receiver.  A virtual, super or
    interface lookup without a receiver returns NULL at once, whatever the
    cache holds.  A static or direct lookup never looks at the receiver: any
    receiver gives what no receiver gives.  A super lookup needs a receiver
    to be there but does not depend on which one. *)
Theorem FindMethodFast_receiver
    (method_idx : N) (referrer : MethodPtr) (access_check : bool) (s : State) :
  (forall type, is_direct type = false ->
     FindMethodFast sv method_idx NULL referrer access_check type s = Returns NULL s) /\
  (forall type this_object, is_direct type = true ->
     FindMethodFast sv method_idx this_object referrer access_check type s =
     FindMethodFast sv method_idx NULL referrer access_check type s) /\
  (forall o1 o2,
     FindMethodFast sv method_idx (Some o1) referrer access_check kSuper s =
     FindMethodFast sv method_idx (Some o2) referrer access_check kSuper s).
Proof.
  split; [|split].
  - intros type Hkind. unfold FindMethodFast. fold (is_direct type). by rewrite Hkind.
  - intros type this_object Hkind.
    destruct (method_cache_slot (runtime s) referrer method_idx) as [cached|] eqn:Hslot.
    + rewrite !(FindMethodFast_hit sv _ _ _ _ _ _ _ Hslot (or_introl Hkind)).
      unfold dispatch_outcome, dispatch_spec. by destruct type.
    + by rewrite !(FindMethodFast_miss sv _ _ _ _ _ _ Hslot).
  - intros o1 o2.
    destruct (method_cache_slot (runtime s) referrer method_idx) as [cached|] eqn:Hslot.
    + rewrite (FindMethodFast_hit sv _ (Some o1) _ _ _ _ _ Hslot
                 (or_intror (ex_intro _ o1 eq_refl))).
      by rewrite (FindMethodFast_hit sv _ (Some o2) _ _ _ _ _ Hslot
                    (or_intror (ex_intro _ o2 eq_refl))).
    + by rewrite !(FindMethodFast_miss sv _ _ _ _ _ _ Hslot).
Qed.

End FastPathProperties.

(** * Further properties of the allocation routines *)

Section AllocationCallOrder.
Context (sv : Services).

Ltac unfold_allocation :=
  unfold AllocArrayFromCode, AllocObjectFromCode, ThrowNewExceptionF_d,
    ThrowIllegalAccessErrorClass, ThrowNewException, GetDexCacheResolvedTypes_Get,
    Method_GetDeclaringClass, IsExceptionPending, DCHECK, CHECK, IsArrayClass,
    IsInstantiable, IsInitialized;
  cbv zeta; run_M.

(** Split on every test and service result met along the code. *)
Ltac split_paths :=
  repeat match goal with
    | |- context [ResolveType sv ?i ?m ?r] =>
        destruct (ResolveType sv i m r) as [[?klass|] ?r1] eqn:?Hresolve; cbn [runtime trace]
    | |- context [EnsureInitialized sv ?k ?a ?b ?r] =>
        destruct (EnsureInitialized sv k a b r) as [[|] ?r2] eqn:?Hinit; cbn [runtime trace]
    | |- context [AllocObject sv ?k ?r] =>
        destruct (AllocObject sv k r) as [?obj ?r3] eqn:?Halloc; cbn [runtime trace]
    | |- context [Array_Alloc sv ?k ?n ?r] =>
        destruct (Array_Alloc sv k n r) as [?obj ?r3] eqn:?Halloc; cbn [runtime trace]
    | |- context [if ?b then _ else _] =>
        destruct b eqn:?Htest; cbn [negb andb runtime trace]
    end.

(** X6: the calls [AllocObjectFromCode] makes, and their order.  After the
    class is known (from the cache, or from the one resolver call a cache
    miss costs), it calls [EnsureInitialized] at most once, only on that
    class and only if the class is not initialized, and then the allocator
    at most once, on that class; when no class is found it calls nothing
    more.  It always ends in a state, returning or aborting. *)
Theorem AllocObjectFromCode_call_order
    (type_idx : N) (method : MethodPtr) (access_check : bool) (s : State) :
  let '(resolved, s1) := resolve_for_alloc sv type_idx method s in
  exists s',
    final_state (AllocObjectFromCode sv type_idx method access_check s) = Some s' /\
    match resolved with
    | None => trace s' = trace s1
    | Some klass =>
        exists init alloc,
          trace s' = trace s1 ++ init ++ alloc /\
          (init = [] \/
           init = [EvEnsureInitialized klass] /\
           status_is_initialized (status_ (classes (runtime s1) klass)) = false) /\
          (alloc = [] \/ alloc = [EvAllocObject klass])
    end.
Proof.
  unfold resolve_for_alloc, type_cache_slot. unfold_allocation.
  destruct (dex_cache_resolved_types_ _ !! type_idx) as [klass|];
    [|destruct (ResolveType sv type_idx method (runtime s)) as [[klass|] r1];
      cbn [runtime trace]].
  all: split_paths; cbn; eexists; (split; [reflexivity|]); cbn [trace]; try reflexivity.
  all: first
    [ exists [], []; split; [by rewrite !app_nil_r|]
    | eexists [EvEnsureInitialized _], [EvAllocObject _]; split; [by rewrite <- ?app_assoc|]
    | eexists [EvEnsureInitialized _], []; split; [by rewrite <- ?app_assoc|]
    | eexists [], [EvAllocObject _]; split; [by rewrite <- ?app_assoc|] ].
  all: split;
    first [ by left | right; split; [reflexivity | by apply negb_true_iff] | by right ].
Qed.

(** X7: the calls [AllocArrayFromCode] makes.  A negative count calls
    nothing.  Otherwise, after the class is known, the array allocator is
    called at most once, with that class and the count given, and a class
    that came from the resolver is passed on only if it is an array
    class. *)
Theorem AllocArrayFromCode_call_order
    (type_idx : N) (method : MethodPtr) (component_count : Z) (access_check : bool)
    (s : State) :
  let '(resolved, s1) := resolve_for_alloc sv type_idx method s in
  exists s',
    final_state (AllocArrayFromCode sv type_idx method component_count access_check s)
      = Some s' /\
    if component_count <? 0 then trace s' = trace s
    else
      match resolved with
      | None => trace s' = trace s1
      | Some klass =>
          trace s' = trace s1 \/
          trace s' = trace s1 ++ [EvArrayAlloc klass component_count] /\
          (is_Some (type_cache_slot (runtime s) method type_idx) \/
           array_class_ (classes (runtime s1) klass) = true)
      end.
Proof.
  unfold resolve_for_alloc, type_cache_slot. unfold_allocation.
  destruct (component_count <? 0).
  - destruct (dex_cache_resolved_types_ _ !! type_idx) as [klass|];
      [|destruct (ResolveType sv type_idx method (runtime s)) as [resolved r1]];
      cbn; eexists; by split.
  - destruct (dex_cache_resolved_types_ _ !! type_idx) as [klass|];
      [|destruct (ResolveType sv type_idx method (runtime s)) as [[klass|] r1];
        cbn [runtime trace]].
    all: split_paths; cbn; eexists; (split; [reflexivity|]); cbn [trace];
      try reflexivity.
    all: first [ by left | right; split; [reflexivity|]; first [by left; eexists | right] ].
    all: by apply negb_false_iff.
Qed.

(** X8: when the class is not cached and the resolver finds none, both
    allocation routines call nothing else.  They return NULL in the store the
    resolver left (so with the resolver's exception pending), unless a debug
    build finds no exception pending there, which aborts. *)
Theorem allocation_resolution_failure
    (type_idx : N) (method : MethodPtr) (component_count : Z) (access_check : bool)
    (s : State) (r1 : Runtime) :
  type_cache_slot (runtime s) method type_idx = NULL ->
  ResolveType sv type_idx method (runtime s) = (NULL, r1) ->
  0 <= component_count ->
  let s1 := {| runtime := r1; trace := trace s ++ [EvResolveType type_idx method] |} in
  let object := AllocObjectFromCode sv type_idx method access_check s in
  let array := AllocArrayFromCode sv type_idx method component_count access_check s in
  (kIsDebugBuild sv = false \/ exception_pending s1 ->
   object = Returns NULL s1 /\ array = Returns NULL s1) /\
  (kIsDebugBuild sv = true -> ~ exception_pending s1 ->
   exists d, object = Fatal d s1 /\ array = Fatal d s1).
Proof.
  intros Hslot Hresolve Hcount s1 object array. subst object array.
  unfold type_cache_slot, exception_pending in *.
  assert (Hlt : (component_count <? 0) = false) by (apply Z.ltb_ge; lia).
  unfold_allocation. rewrite Hlt, Hslot, Hresolve. cbn [runtime trace]. fold s1.
  split.
  - intros [-> | Hpending]; [by split|].
    rewrite bool_decide_eq_true_2 by exact Hpending. by rewrite andb_false_r.
  - intros -> Hnone. rewrite bool_decide_eq_false_2 by exact Hnone. cbn. by eexists.
Qed.

(** X9: with [access_check] on, a class the referring class may not access
    is refused by both routines with IllegalAccessError pending, before any
    initialization or allocation: from the point where the class is known,
    only the pending exception changes and nothing is called. *)
Theorem allocation_access_denied
    (type_idx : N) (method : MethodPtr) (component_count : Z)
    (s s1 : State) (klass : ClassPtr) :
  resolve_for_alloc sv type_idx method s = (Some klass, s1) ->
  let referrer := method_declaring_class_ (methods (runtime s1) method) in
  CanAccess sv (runtime s1) referrer klass = false ->
  let thrown := {| descriptor_ := "Ljava/lang/IllegalAccessError;";
                   detail_message_ :=
                     IllegalAccessErrorClass_msg sv (runtime s1) referrer klass |} in
  let s' := {| runtime := set_exception (Some thrown) (runtime s1); trace := trace s1 |} in
  (instantiable_ (classes (runtime s1) klass) = true ->
   AllocObjectFromCode sv type_idx method true s = Returns NULL s') /\
  (0 <= component_count ->
   is_Some (type_cache_slot (runtime s) method type_idx) \/
   array_class_ (classes (runtime s1) klass) = true ->
   AllocArrayFromCode sv type_idx method component_count true s = Returns NULL s').
Proof.
  intros Hres referrer Hcan thrown s'. subst referrer.
  unfold resolve_for_alloc, type_cache_slot in *.
  split.
  - intros Hinst. unfold_allocation.
    destruct (dex_cache_resolved_types_ _ !! type_idx) as [k|].
    + injection Hres as -> ->. rewrite Hinst. cbn [negb]. by rewrite Hcan.
    + destruct (ResolveType sv type_idx method (runtime s)) as [resolved r1].
      injection Hres as -> <-. cbn [runtime trace] in *. rewrite Hinst.
      cbn [negb runtime trace]. by rewrite Hcan.
  - intros Hcount Harray.
    assert (Hlt : (component_count <? 0) = false) by (apply Z.ltb_ge; lia).
    unfold_allocation. rewrite Hlt.
    destruct (dex_cache_resolved_types_ _ !! type_idx) as [k|].
    + injection Hres as -> ->. by rewrite Hcan.
    + destruct Harray as [[? ?] | Harray]; [discriminate|].
      destruct (ResolveType sv type_idx method (runtime s)) as [resolved r1].
      injection Hres as -> <-. cbn [runtime trace] in *. rewrite Harray.
      cbn [negb runtime trace]. by rewrite Hcan.
Qed.

(** X17: what a successful [AllocObjectFromCode] delivers.  Once the class
    is known and the access test (if asked for) has passed, an initialized
    class goes straight to the allocator; a class that is not initialized is
    first initialized (with both permissions given), and on success the
    allocator runs in the store the initializer left.  Either way the result
    and the final store are the allocator's. *)
Theorem AllocObjectFromCode_allocates
    (type_idx : N) (method : MethodPtr) (access_check : bool)
    (s s1 : State) (klass : ClassPtr) :
  resolve_for_alloc sv type_idx method s = (Some klass, s1) ->
  access_check = false \/
  (instantiable_ (classes (runtime s1) klass) = true /\
   CanAccess sv (runtime s1) (method_declaring_class_ (methods (runtime s1) method)) klass
     = true) ->
  (status_is_initialized (status_ (classes (runtime s1) klass)) = true ->
   AllocObjectFromCode sv type_idx method access_check s =
     Returns (AllocObject sv klass (runtime s1)).1
       {| runtime := (AllocObject sv klass (runtime s1)).2;
          trace := trace s1 ++ [EvAllocObject klass] |}) /\
  (status_is_initialized (status_ (classes (runtime s1) klass)) = false ->
   forall r2, EnsureInitialized sv klass true true (runtime s1) = (true, r2) ->
   AllocObjectFromCode sv type_idx method access_check s =
     Returns (AllocObject sv klass r2).1
       {| runtime := (AllocObject sv klass r2).2;
          trace := trace s1 ++ [EvEnsureInitialized klass; EvAllocObject klass] |}).
Proof.
  intros Hres Hacc. unfold resolve_for_alloc, type_cache_slot in Hres.
  assert (Hgo :
    AllocObjectFromCode sv type_idx method access_check s =
    AllocObjectFromCode sv type_idx method false s).
  { destruct Hacc as [-> | [Hinst Hcan]]; [reflexivity|].
    destruct access_check; [|reflexivity].
    unfold_allocation.
    destruct (dex_cache_resolved_types_ _ !! type_idx) as [k|].
    - injection Hres as -> ->. rewrite Hinst. cbn [negb]. by rewrite Hcan.
    - destruct (ResolveType sv type_idx method (runtime s)) as [resolved r1].
      injection Hres as -> <-. cbn [runtime trace] in *. rewrite Hinst.
      cbn [negb runtime trace]. by rewrite Hcan. }
  rewrite Hgo. clear Hgo Hacc.
  split.
  - intros Hinit. unfold_allocation.
    destruct (dex_cache_resolved_types_ _ !! type_idx) as [k|].
    + injection Hres as -> ->. rewrite Hinit. cbn.
      by destruct (AllocObject sv klass (runtime s1)).
    + destruct (ResolveType sv type_idx method (runtime s)) as [resolved r1].
      injection Hres as -> <-. cbn [runtime trace] in *. rewrite Hinit. cbn.
      by destruct (AllocObject sv klass r1).
  - intros Hinit r2 Hensure. unfold_allocation.
    destruct (dex_cache_resolved_types_ _ !! type_idx) as [k|].
    + injection Hres as -> ->. rewrite Hinit. cbn. rewrite Hensure. cbn.
      destruct (AllocObject sv klass r2). by rewrite <- app_assoc.
    + destruct (ResolveType sv type_idx method (runtime s)) as [resolved r1].
      injection Hres as -> <-. cbn [runtime trace] in *. rewrite Hinit. cbn.
      rewrite Hensure. cbn. destruct (AllocObject sv klass r2).
      by rewrite <- !app_assoc.
Qed.

(** The collaborators' side of the failure contract: a resolver, an
    initializer or an allocator that fails leaves an exception pending. *)
Section FailureContract.
Hypothesis resolver_throws : forall idx m r,
  (ResolveType sv idx m r).1 = NULL ->
  is_Some (exception_ (self (ResolveType sv idx m r).2)).
Hypothesis initializer_throws : forall k a b r,
  (EnsureInitialized sv k a b r).1 = false ->
  is_Some (exception_ (self (EnsureInitialized sv k a b r).2)).
Hypothesis allocator_throws : forall k r,
  (AllocObject sv k r).1 = NULL ->
  is_Some (exception_ (self (AllocObject sv k r).2)).
Hypothesis array_allocator_throws : forall k n r,
  (Array_Alloc sv k n r).1 = NULL ->
  is_Some (exception_ (self (Array_Alloc sv k n r).2)).

(** Bring in what the contract says about the service results at hand. *)
Ltac use_contract :=
  repeat match goal with
    | H : ResolveType sv ?i ?m ?r = (None, _) |- _ =>
        let C := fresh "Hthrown" in
        pose proof (resolver_throws i m r) as C; rewrite H in C;
        specialize (C eq_refl); cbn [snd] in C; revert H
    | H : EnsureInitialized sv ?k ?a ?b ?r = (false, _) |- _ =>
        let C := fresh "Hthrown" in
        pose proof (initializer_throws k a b r) as C; rewrite H in C;
        specialize (C eq_refl); cbn [snd] in C; revert H
    | H : AllocObject sv ?k ?r = (None, _) |- _ =>
        let C := fresh "Hthrown" in
        pose proof (allocator_throws k r) as C; rewrite H in C;
        specialize (C eq_refl); cbn [snd] in C; revert H
    | H : Array_Alloc sv ?k ?n ?r = (None, _) |- _ =>
        let C := fresh "Hthrown" in
        pose proof (array_allocator_throws k n r) as C; rewrite H in C;
        specialize (C eq_refl); cbn [snd] in C; revert H
    end; intros.

(** A debug check on a pending exception cannot fail when one is pending. *)
Ltac dcheck_passes :=
  match goal with
  | Hp : is_Some ?e, Ht : _ && negb (bool_decide (is_Some ?e)) = true |- _ =>
      rewrite bool_decide_eq_true_2 in Ht by exact Hp;
      rewrite andb_false_r in Ht; discriminate Ht
  end.

(** X10: if the resolver, the initializer and the allocator each leave an
    exception pending when they fail, then [AllocObjectFromCode] never aborts
    (its debug checks hold), and whenever it returns NULL an exception is
    pending. *)
Theorem AllocObjectFromCode_null_has_exception
    (type_idx : N) (method : MethodPtr) (access_check : bool) (s : State) :
  match AllocObjectFromCode sv type_idx method access_check s with
  | Returns None s' => exception_pending s'
  | Returns (Some _) _ => True
  | Fatal _ _ => False
  | Undefined => False
  end.
Proof.
  unfold exception_pending. unfold_allocation.
  destruct (dex_cache_resolved_types_ _ !! type_idx) as [klass|].
  all: split_paths; cbn; use_contract; try dcheck_passes;
    repeat match goal with
           | |- match ?o with Some _ => _ | None => _ end => destruct o
           end;
    try exact I; try assumption; try done.
  all: match goal with H : negb true = true |- _ => discriminate H end.
Qed.

(** X11: under the same contract, [AllocArrayFromCode] returns NULL only
    with an exception pending, and it aborts in one case only: the cache had
    no class and the resolver returned one that is not an array class. *)
Theorem AllocArrayFromCode_null_has_exception
    (type_idx : N) (method : MethodPtr) (component_count : Z) (access_check : bool)
    (s : State) :
  match AllocArrayFromCode sv type_idx method component_count access_check s with
  | Returns None s' => exception_pending s'
  | Returns (Some _) _ => True
  | Fatal _ _ =>
      type_cache_slot (runtime s) method type_idx = NULL /\
      exists klass r1,
        ResolveType sv type_idx method (runtime s) = (Some klass, r1) /\
        array_class_ (classes r1 klass) = false
  | Undefined => False
  end.
Proof.
  unfold exception_pending, type_cache_slot. unfold_allocation.
  destruct (component_count <? 0); [cbn; done|].
  destruct (dex_cache_resolved_types_ _ !! type_idx) as [klass|].
  all: split_paths; cbn; use_contract; try dcheck_passes;
    repeat match goal with
           | |- match ?o with Some _ => _ | None => _ end => destruct o
           end;
    try exact I; try assumption; try done.
  all: split; [reflexivity|]; eexists _, _; split; [reflexivity|];
    by apply negb_true_iff.
Qed.

End FailureContract.

End AllocationCallOrder.

(** * Further properties of the boundary routines *)

Section BoundaryCallProperties.
Context (sv : Services).

(** X12: when monitor exit raises nothing, [UnlockJniSynchronizedMethod]
    returns after that one call, made with no exception pending, and the
    exception pending on entry (or none) is pending again on return; the rest
    of the store is as monitor exit left it. *)
Theorem UnlockJniSynchronizedMethod_clean_exit
    (locked : jobject) (s : State) (obj : ObjectPtr) (r1 : Runtime) :
  let r0 := runtime_at_monitor_exit (runtime s) in
  DecodeJObject sv r0 locked = Some obj ->
  MonitorExit sv obj r0 = (tt, r1) ->
  exception_ (self r1) = NULL ->
  exception_ (self r0) = NULL /\
  UnlockJniSynchronizedMethod sv locked s =
    Returns tt {| runtime := match exception_ (self (runtime s)) with
                             | Some e => set_exception (Some e) r1
                             | None => r1
                             end;
                  trace := trace s ++ [EvMonitorExit obj] |} /\
  forall s', UnlockJniSynchronizedMethod sv locked s = Returns tt s' ->
    exception_ (self (runtime s')) = exception_ (self (runtime s)) /\
    classes (runtime s') = classes r1 /\ objects (runtime s') = objects r1.
Proof.
  intros r0 Hdecode Hexit Hclean. subst r0. unfold runtime_at_monitor_exit in *.
  assert (Hrun : UnlockJniSynchronizedMethod sv locked s =
    Returns tt {| runtime := match exception_ (self (runtime s)) with
                             | Some e => set_exception (Some e) r1
                             | None => r1
                             end;
                  trace := trace s ++ [EvMonitorExit obj] |}).
  { unfold UnlockJniSynchronizedMethod, IsExceptionPending, GetException, ClearException,
      SetException. run_M.
    destruct (exception_ (self (runtime s))) as [saved|] eqn:Hentry; cbn;
      rewrite Hdecode; cbn; rewrite Hexit; cbn; rewrite Hclean; cbn;
      rewrite ?Hentry; reflexivity. }
  split; [|split].
  - destruct (exception_ (self (runtime s))) eqn:Hentry; [reflexivity | exact Hentry].
  - exact Hrun.
  - intros s' Hret. rewrite Hrun in Hret. injection Hret as <-. cbn [runtime].
    destruct (exception_ (self (runtime s))); by repeat split.
Qed.

(** X13: [CheckSuspend] comes back only with both request flags down.  When
    the loop ends it has returned (it never aborts), neither flag is set in
    the state it returns, and its turns before the last added one
    checkpoint run or one full suspend check each to the trace, and nothing
    else. *)
Theorem CheckSuspend_returns_with_flags_down (fuel : nat) :
  forall (s : State) (o : Outcome unit),
    CheckSuspend sv fuel s = Some o ->
    exists s' evs,
      o = Returns tt s' /\ no_request s' /\
      trace s' = trace s ++ evs /\
      Forall (fun ev => ev = EvRunCheckpointFunction \/ ev = EvFullSuspendCheck) evs /\
      (length evs < fuel)%nat.
Proof.
  induction fuel as [|fuel IH]; intros s o Hrun; [discriminate|].
  destruct (checkpoint_request_ (self (runtime s))) eqn:Hc.
  - rewrite (CheckSuspend_again sv _ _ _ (CheckSuspend_iteration_checkpoint sv s Hc)) in Hrun.
    destruct (IH _ _ Hrun) as (s' & evs & -> & Hdown & Htrace & Hevs & Hlen).
    exists s', (EvRunCheckpointFunction :: evs). repeat split; try apply Hdown.
    + rewrite Htrace. cbn [trace]. by rewrite <- app_assoc.
    + constructor; [by left | exact Hevs].
    + cbn [length]. lia.
  - destruct (suspend_request_ (self (runtime s))) eqn:Hs.
    + rewrite (CheckSuspend_again sv _ _ _ (CheckSuspend_iteration_suspend sv s Hc Hs))
        in Hrun.
      destruct (IH _ _ Hrun) as (s' & evs & -> & Hdown & Htrace & Hevs & Hlen).
      exists s', (EvFullSuspendCheck :: evs). repeat split; try apply Hdown.
      * rewrite Htrace. cbn [trace]. by rewrite <- app_assoc.
      * constructor; [by right | exact Hevs].
      * cbn [length]. lia.
    + cbn [CheckSuspend] in Hrun. rewrite (CheckSuspend_iteration_idle sv s Hc Hs) in Hrun.
      injection Hrun as <-. exists s, []. repeat split; try assumption.
      * by rewrite app_nil_r.
      * constructor.
      * cbn [length]. lia.
Qed.

(** X14: there is no timeout in [CheckSuspend].  If every full suspend
    check made under a standing suspend request (and no checkpoint request)
    comes back with the flags as they were, the loop does not end, however
    many turns it is given. *)
Theorem CheckSuspend_waits_for_resume :
  (forall r, checkpoint_request_ (self r) = false -> suspend_request_ (self r) = true ->
     checkpoint_request_ (self (FullSuspendCheck sv r).2) = false /\
     suspend_request_ (self (FullSuspendCheck sv r).2) = true) ->
  forall (fuel : nat) (s : State),
    checkpoint_request_ (self (runtime s)) = false ->
    suspend_request_ (self (runtime s)) = true ->
    CheckSuspend sv fuel s = None.
Proof.
  intros Hstands fuel. induction fuel as [|fuel IH]; intros s Hc Hs; [reflexivity|].
  rewrite (CheckSuspend_again sv _ _ _ (CheckSuspend_iteration_suspend sv s Hc Hs)).
  destruct (Hstands _ Hc Hs) as [Hc' Hs']. by apply IH.
Qed.

End BoundaryCallProperties.

Section ReferenceResultProperties.
Context (jv : JniServices).

(** X15: [CheckReferenceResult] accepts a null reference at once, and a
    reference other than the invalid one that is an instance of the current
    method's return type: it returns without calling the abort routine, in
    the state the return-type lookup left. *)
Theorem CheckReferenceResult_accepts (s : State) :
  CheckReferenceResult jv NULL s = Returns tt s /\
  forall obj method type s1,
    obj <> kInvalidIndirectRefObject jv ->
    GetCurrentMethod jv (runtime s) = Some method ->
    GetReturnType jv method s = Returns (Some type) s1 ->
    InstanceOf jv (runtime s1) obj type = true ->
    CheckReferenceResult jv (Some obj) s = Returns tt s1.
Proof.
  split; [reflexivity|].
  intros obj method type s1 Hvalid Hcurrent Hlookup Hinstance.
  unfold CheckReferenceResult. run_M.
  rewrite bool_decide_eq_false_2 by exact Hvalid. cbn.
  rewrite Hcurrent. cbn. rewrite Hlookup. cbn. by rewrite Hinstance.
Qed.

(** X16: when the abort routine does not return, [CheckReferenceResult]
    returns only for a null reference or for a reference that is not the
    invalid one and is an instance of the return type of the current
    method. *)
Theorem CheckReferenceResult_sound (o : option ObjectPtr) (s s' : State) :
  (forall msg s0 a s1, JniAbortF jv msg s0 <> Returns a s1) ->
  CheckReferenceResult jv o s = Returns tt s' ->
  o = NULL \/
  exists obj method type,
    o = Some obj /\ obj <> kInvalidIndirectRefObject jv /\
    GetCurrentMethod jv (runtime s) = Some method /\
    GetReturnType jv method s = Returns (Some type) s' /\
    InstanceOf jv (runtime s') obj type = true.
Proof.
  intros Habort Hret. destruct o as [obj|]; [right | by left].
  assert (Hfatal : forall msg s0 (k : State -> Outcome unit),
    match JniAbortF jv msg s0 with
    | Returns _ s1 => k s1
    | Fatal d s1 => Fatal d s1
    | Undefined => Undefined
    end <> Returns tt s').
  { intros msg s0 k Hcall.
    destruct (JniAbortF jv msg s0) as [[] s1 | d s1 | ] eqn:Hmsg; try discriminate Hcall.
    by apply Habort in Hmsg. }
  revert Hret. unfold CheckReferenceResult. run_M. unfold mret, M_ret, undefined.
  case_bool_decide as Hinvalid.
  - intros Hret. exfalso. by apply Hfatal in Hret.
  - cbn beta iota.
    destruct (GetCurrentMethod jv (runtime s)) as [method|] eqn:Hcurrent; [|discriminate].
    cbn beta iota.
    destruct (GetReturnType jv method s) as [[type|] s1 | d s1 | ] eqn:Hlookup;
      try discriminate.
    cbn beta iota.
    destruct (InstanceOf jv (runtime s1) obj type) eqn:Hinstance; cbn [negb].
    + intros Hret. injection Hret as Hstate. subst s1. by exists obj, method, type.
    + intros Hret. exfalso. by apply Habort in Hret.
Qed.

End ReferenceResultProperties.

(** * The further properties on the sample world *)

Import SampleBoundary.

(** Field 0 passes every gate of a primitive instance read of size 8. *)
Lemma FindFieldFast_returns_iff_witness :
  field_cache_slot (runtime s0) 0%nat 0%N = Some 0%nat /\
  FindFieldFast services 0 0 InstancePrimitiveRead 8 s0 = Returns (Some 0%nat) s0.
Proof.
  split; [reflexivity|].
  apply (proj2 (FindFieldFast_returns_iff services 0%N 0%nat InstancePrimitiveRead 8%N s0
                  0%nat)).
  repeat split; reflexivity.
Defined.

(** Field 0 may be written by a method of class 0, so it may be read. *)
Lemma FindFieldFast_write_implies_read_witness :
  FindFieldFast services 0 0 InstancePrimitiveWrite 8 s0 = Returns (Some 0%nat) s0 /\
  FindFieldFast services 0 0 InstancePrimitiveRead 8 s0 = Returns (Some 0%nat) s0.
Proof.
  split; [reflexivity|].
  exact (FindFieldFast_write_implies_read services 0%N 0%nat InstancePrimitiveWrite 8%N
           s0 s0 0%nat eq_refl).
Defined.

(** Method 0 is cached: a virtual lookup without receiver still returns
    NULL, a static lookup returns the method with or without receiver, and a
    super lookup gives the same for objects 0 and 1. *)
Lemma FindMethodFast_receiver_witness :
  is_direct kVirtual = false /\ is_direct kStatic = true /\
  FindMethodFast services 0 NULL 0 false kVirtual s0 = Returns NULL s0 /\
  FindMethodFast services 0 (Some 1%nat) 0 false kStatic s0 =
    FindMethodFast services 0 NULL 0 false kStatic s0 /\
  FindMethodFast services 0 (Some 0%nat) 1 false kSuper s0 =
    FindMethodFast services 0 (Some 1%nat) 1 false kSuper s0.
Proof.
  split; [reflexivity|]. split; [reflexivity|]. split; [|split].
  - exact (proj1 (FindMethodFast_receiver services 0%N 0%nat false s0) kVirtual eq_refl).
  - exact (proj1 (proj2 (FindMethodFast_receiver services 0%N 0%nat false s0))
             kStatic (Some 1%nat) eq_refl).
  - exact (proj2 (proj2 (FindMethodFast_receiver services 0%N 1%nat false s0))
             0%nat 1%nat).
Defined.

(** Type index 7 is not cached and the sample resolver does not know it: it
    leaves NoClassDefFoundError pending and both routines return NULL. *)
Lemma allocation_resolution_failure_witness :
  type_cache_slot (runtime s0) 0%nat 7%N = NULL /\
  ResolveType services 7%N 0%nat (runtime s0) =
    (NULL, set_exception (Some no_class_def_found) (runtime s0)) /\
  0 <= 0 /\
  AllocObjectFromCode services 7 0 true s0 =
    Returns NULL {| runtime := set_exception (Some no_class_def_found) (runtime s0);
                    trace := [EvResolveType 7%N 0%nat] |} /\
  AllocArrayFromCode services 7 0 0 true s0 =
    Returns NULL {| runtime := set_exception (Some no_class_def_found) (runtime s0);
                    trace := [EvResolveType 7%N 0%nat] |}.
Proof.
  assert (Hcount : 0 <= 0) by discriminate.
  split; [reflexivity|]. split; [reflexivity|]. split; [exact Hcount|].
  apply (proj1 (allocation_resolution_failure services 7%N 0%nat 0 true s0
                  (set_exception (Some no_class_def_found) (runtime s0))
                  eq_refl eq_refl Hcount)).
  right. by eexists.
Defined.

(** Under the strict collaborators class 0 may not be accessed: both
    routines refuse type index 0 with IllegalAccessError. *)
Lemma allocation_access_denied_witness :
  resolve_for_alloc strict_services 0%N 0%nat s0 = (Some 0%nat, s0) /\
  CanAccess strict_services (runtime s0) 0%nat 0%nat = false /\
  instantiable_ (classes (runtime s0) 0%nat) = true /\
  AllocObjectFromCode strict_services 0 0 true s0 =
    Returns NULL
      {| runtime := set_exception
                      (Some {| descriptor_ := "Ljava/lang/IllegalAccessError;";
                               detail_message_ := "Illegal class access" |})
                      (runtime s0);
         trace := [] |} /\
  AllocArrayFromCode strict_services 0 0 3 true s0 =
    Returns NULL
      {| runtime := set_exception
                      (Some {| descriptor_ := "Ljava/lang/IllegalAccessError;";
                               detail_message_ := "Illegal class access" |})
                      (runtime s0);
         trace := [] |}.
Proof.
  pose proof (allocation_access_denied strict_services 0%N 0%nat 3 s0 s0 0%nat
                eq_refl eq_refl) as [Hobject Harray].
  assert (Hcount : 0 <= 3) by discriminate.
  split; [reflexivity|]. split; [reflexivity|]. split; [reflexivity|].
  split; [exact (Hobject eq_refl)|].
  exact (Harray Hcount (or_introl (ex_intro _ 0%nat eq_refl))).
Defined.

(** Type index 0 of method 0 is the initialized class 0: the object is the
    allocator's.  Type index 1 is the uninitialized class 1: with the access
    check off it is initialized, then allocated. *)
Lemma AllocObjectFromCode_allocates_witness :
  resolve_for_alloc services 0%N 0%nat s0 = (Some 0%nat, s0) /\
  status_is_initialized (status_ (classes (runtime s0) 0%nat)) = true /\
  AllocObjectFromCode services 0 0 true s0 =
    Returns (Some 7%nat) {| runtime := runtime s0; trace := [EvAllocObject 0%nat] |} /\
  resolve_for_alloc services 1%N 0%nat s0 = (Some 1%nat, s0) /\
  status_is_initialized (status_ (classes (runtime s0) 1%nat)) = false /\
  AllocObjectFromCode services 1 0 false s0 =
    Returns (Some 7%nat)
      {| runtime := runtime s0;
         trace := [EvEnsureInitialized 1%nat; EvAllocObject 1%nat] |}.
Proof.
  split; [reflexivity|]. split; [reflexivity|]. split; [|split; [|split]].
  - exact (proj1 (AllocObjectFromCode_allocates services 0%N 0%nat true s0 s0 0%nat
                    eq_refl (or_intror (conj eq_refl eq_refl))) eq_refl).
  - reflexivity.
  - reflexivity.
  - exact (proj2 (AllocObjectFromCode_allocates services 1%N 0%nat false s0 s0 1%nat
                    eq_refl (or_introl eq_refl)) eq_refl (runtime s0) eq_refl).
Defined.

(** The sample resolver fails only with NoClassDefFoundError pending, and
    the sample initializer and allocators do not fail. *)
Lemma AllocObjectFromCode_null_has_exception_witness :
  AllocObjectFromCode services 7 0 true s0 =
    Returns NULL {| runtime := set_exception (Some no_class_def_found) (runtime s0);
                    trace := [EvResolveType 7%N 0%nat] |} /\
  exception_pending {| runtime := set_exception (Some no_class_def_found) (runtime s0);
                       trace := [EvResolveType 7%N 0%nat] |}.
Proof.
  split; [reflexivity|].
  assert (Hresolver : forall idx m r,
    (ResolveType services idx m r).1 = NULL ->
    is_Some (exception_ (self (ResolveType services idx m r).2))).
  { intros idx m r. cbn.
    repeat match goal with
           | |- context [match ?x with _ => _ end] => destruct x
           end; cbn; intros H; by (discriminate H || eexists). }
  assert (Hinitializer : forall k a b r,
    (EnsureInitialized services k a b r).1 = false ->
    is_Some (exception_ (self (EnsureInitialized services k a b r).2)))
    by (intros k a b r H; discriminate H).
  assert (Hallocator : forall k r,
    (AllocObject services k r).1 = NULL ->
    is_Some (exception_ (self (AllocObject services k r).2)))
    by (intros k r H; discriminate H).
  exact (AllocObjectFromCode_null_has_exception services Hresolver Hinitializer Hallocator
           7%N 0%nat true s0).
Defined.

Lemma AllocArrayFromCode_null_has_exception_witness :
  AllocArrayFromCode services 7 0 2 false s0 =
    Returns NULL {| runtime := set_exception (Some no_class_def_found) (runtime s0);
                    trace := [EvResolveType 7%N 0%nat] |} /\
  exception_pending {| runtime := set_exception (Some no_class_def_found) (runtime s0);
                       trace := [EvResolveType 7%N 0%nat] |}.
Proof.
  split; [reflexivity|].
  assert (Hresolver : forall idx m r,
    (ResolveType services idx m r).1 = NULL ->
    is_Some (exception_ (self (ResolveType services idx m r).2))).
  { intros idx m r. cbn.
    repeat match goal with
           | |- context [match ?x with _ => _ end] => destruct x
           end; cbn; intros H; by (discriminate H || eexists). }
  assert (Hallocator : forall k n r,
    (Array_Alloc services k n r).1 = NULL ->
    is_Some (exception_ (self (Array_Alloc services k n r).2)))
    by (intros k n r H; discriminate H).
  exact (AllocArrayFromCode_null_has_exception services Hresolver Hallocator
           7%N 0%nat 2 false s0).
Defined.

(** Unlocking object 0 raises nothing: the exception the native method left
    pending is pending again afterwards. *)
Lemma UnlockJniSynchronizedMethod_clean_exit_witness :
  DecodeJObject services (runtime_at_monitor_exit (heap throwing_thread)) 0%nat =
    Some 0%nat /\
  MonitorExit services 0%nat (runtime_at_monitor_exit (heap throwing_thread)) =
    (tt, heap idle_thread) /\
  UnlockJniSynchronizedMethod services 0 (state throwing_thread) =
    Returns tt {| runtime := heap throwing_thread; trace := [EvMonitorExit 0%nat] |}.
Proof.
  split; [reflexivity|]. split; [reflexivity|].
  exact (proj1 (proj2 (UnlockJniSynchronizedMethod_clean_exit services 0%nat
                         (state throwing_thread) 0%nat (heap idle_thread)
                         eq_refl eq_refl eq_refl))).
Defined.

(** The thread asked for a checkpoint and a suspension comes back after two
    calls with both flags down. *)
Lemma CheckSuspend_returns_with_flags_down_witness :
  CheckSuspend services 3 (state busy_thread) =
    Some (Returns tt {| runtime := heap idle_thread;
                        trace := [EvRunCheckpointFunction; EvFullSuspendCheck] |}) /\
  exists s' evs,
    Returns tt {| runtime := heap idle_thread;
                  trace := [EvRunCheckpointFunction; EvFullSuspendCheck] |}
      = Returns tt s' /\
    no_request s' /\ trace s' = trace (state busy_thread) ++ evs /\
    Forall (fun ev => ev = EvRunCheckpointFunction \/ ev = EvFullSuspendCheck) evs /\
    (length evs < 3)%nat.
Proof.
  split; [reflexivity|].
  exact (CheckSuspend_returns_with_flags_down services 3 (state busy_thread) _ eq_refl).
Defined.

(** With a suspend check that never sees the request withdrawn, five turns
    are not enough, nor any other number. *)
Lemma CheckSuspend_waits_for_resume_witness :
  checkpoint_request_ (self (heap suspended_thread)) = false /\
  suspend_request_ (self (heap suspended_thread)) = true /\
  CheckSuspend stubborn_services 5 (state suspended_thread) = None.
Proof.
  split; [reflexivity|]. split; [reflexivity|].
  apply (CheckSuspend_waits_for_resume stubborn_services); [|reflexivity|reflexivity].
  intros r Hc Hs. by split.
Defined.

(** Object 0 is an instance of class 0, the return type of the current
    method: it is accepted, and so is null. *)
Lemma CheckReferenceResult_accepts_witness :
  0%nat <> kInvalidIndirectRefObject jni /\
  GetCurrentMethod jni (runtime s0) = Some 0%nat /\
  GetReturnType jni 0%nat s0 = Returns (Some 0%nat) s0 /\
  InstanceOf jni (runtime s0) 0%nat 0%nat = true /\
  CheckReferenceResult jni (Some 0%nat) s0 = Returns tt s0 /\
  CheckReferenceResult jni NULL s0 = Returns tt s0.
Proof.
  assert (Hvalid : 0%nat <> kInvalidIndirectRefObject jni) by discriminate.
  split; [exact Hvalid|]. split; [reflexivity|]. split; [reflexivity|].
  split; [reflexivity|]. split.
  - exact (proj2 (CheckReferenceResult_accepts jni s0) 0%nat 0%nat 0%nat s0
             Hvalid eq_refl eq_refl eq_refl).
  - exact (proj1 (CheckReferenceResult_accepts jni s0)).
Defined.

(** The sample abort routine ends the process, so a reference the check lets
    through is a good one; object 1 returned from a method declared to return
    the array class 2 is not let through. *)
Lemma CheckReferenceResult_sound_witness :
  (forall msg s a s1, JniAbortF jni msg s <> Returns a s1) /\
  CheckReferenceResult jni (Some 1%nat) s0 = Returns tt s0 /\
  (Some 1%nat = NULL \/
   exists obj method type,
     Some 1%nat = Some obj /\ obj <> kInvalidIndirectRefObject jni /\
     GetCurrentMethod jni (runtime s0) = Some method /\
     GetReturnType jni method s0 = Returns (Some type) s0 /\
     InstanceOf jni (runtime s0) obj type = true) /\
  CheckReferenceResult jni_array (Some 1%nat) s0 =
    Fatal "attempt to return an instance of java.lang.String from Object Native.get()" s0.
Proof.
  assert (Habort : forall msg s a s1, JniAbortF jni msg s <> Returns a s1)
    by (intros msg s a s1 H; discriminate H).
  split; [exact Habort|]. split; [reflexivity|]. split; [|reflexivity].
  exact (CheckReferenceResult_sound jni (Some 1%nat) s0 s0 Habort eq_refl).
Defined.
